(** * Building estimator: the estimation engine of [calculations.py]

    A shallow embedding of [calculate_materials], [generate_plan_variants],
    [calculate_cost] and [generate_boq], and the properties of the
    specification stated over it.

    Numbers.  The Python code computes with [float] and [int].  Here every
    number is an exact rational ([Q]); [round(x, n)] is rounding to the
    nearest multiple of [10^-n] with ties to the even multiple (what Python
    does on the exact value it is given), [math.ceil] is [Qceiling].
    Comparisons of numbers ([==], [>]) are comparisons of rationals.

    Dictionaries.  A materials snapshot is a dictionary of sections, each a
    dictionary from quantity names to numbers: [gmap string (gmap string Q)].
    A rate table is a [gmap string Q].

    Errors.  A Python exception is a value [Err e] of the type [result]. *)

From Stdlib Require Import ZArith QArith Qround Qabs Lqa Lia String Ascii List.
From stdpp Require Import gmap strings.

Local Open Scope Q_scope.

(* ===================================================================== *)
(** ** Python numbers                                                      *)
(* ===================================================================== *)

Module PyNum.

(** Nearest integer, ties to even: [round(x)] of Python 3. *)
Definition round_half_even (x : Q) : Z :=
  let f := Qfloor x in
  match ((x - inject_Z f) ?= (1 # 2))%Q with
  | Lt => f
  | Gt => (f + 1)%Z
  | Eq => if Z.even f then f else (f + 1)%Z
  end.

Definition pow10 (n : nat) : Q := inject_Z (10 ^ Z.of_nat n).

(** [round(x, n)] for [n >= 0]. *)
Definition round (x : Q) (n : nat) : Q :=
  inject_Z (round_half_even (x * pow10 n)) / pow10 n.

(** [math.ceil]. *)
Definition ceil (x : Q) : Z := Qceiling x.

(** Truth value of a number: [if x:] holds when [x] is not zero. *)
Definition truthy (x : Q) : bool := negb (Qeq_bool x 0).

(** [x > 0] as a test. *)
Definition Qgt0b (x : Q) : bool := negb (Qle_bool x 0).

End PyNum.
Export PyNum.

(* ===================================================================== *)
(** ** Exceptions                                                          *)
(* ===================================================================== *)

Inductive exn : Type :=
| KeyError (key : string)
| ZeroDivisionError.

Inductive result (A : Type) : Type :=
| Ok (a : A)
| Err (e : exn).
Arguments Ok {A} a.
Arguments Err {A} e.

Definition rbind {A B : Type} (r : result A) (k : A -> result B) : result B :=
  match r with
  | Ok a => k a
  | Err e => Err e
  end.

Notation "'do' x <- r ; k" := (rbind r (fun x => k))
  (at level 10, x name, r at level 100, k at level 200).

(** [x / y] of Python on numbers: raises when [y] is zero. *)
Definition pydiv (x y : Q) : result Q :=
  if Qeq_bool y 0 then Err ZeroDivisionError else Ok (x / y).

(** [d[k]] on a dictionary: raises [KeyError] when [k] is absent. *)
Definition getitem (d : gmap string Q) (k : string) : result Q :=
  match d !! k with
  | Some v => Ok v
  | None => Err (KeyError k)
  end.

(** [d.get(k, default)]. *)
Definition get (d : gmap string Q) (k : string) (default : Q) : Q :=
  match d !! k with
  | Some v => v
  | None => default
  end.

(* ===================================================================== *)
(** ** Materials: [calculate_materials]                                    *)
(* ===================================================================== *)

(** The inputs, after [int(...)] and [float(...)] have parsed the form
    fields: the fields read with [inputs[...]] are always there, the ones
    read with [inputs.get(..., default)] may be absent. *)
Record InputSet : Type := {
  num_floors : Z;
  structure_type : string;
  num_footings : Z;
  footing_length : Q;
  footing_width : Q;
  footing_depth : Q;
  pcc_thickness : Q;
  num_columns : Z;
  column_length : Q;
  column_width : Q;
  column_height : Q;
  total_beam_length : Q;
  beam_width : Q;
  beam_depth : Q;
  slab_area : Q;
  slab_thickness : Q;
  concrete_grade : option string;
  mortar_mix : option string;
  external_wall_length : Q;
  internal_wall_length : Q;
  wall_thickness : Q;
  wall_height : Q;
  internal_plaster_thickness : Q;
  external_plaster_thickness : Q;
  brick_length_m : option Q;
  brick_width_m : option Q;
  brick_height_m : option Q;
  flooring_area : option Q;
  tile_size : option Z;
  paint_coats : option Z
}.

(** [str.lower] on the letters A to Z. *)
Definition lower_ascii (c : ascii) : ascii :=
  let n := nat_of_ascii c in
  if (Nat.leb 65 n && Nat.leb n 90)%bool then ascii_of_nat (n + 32) else c.

Fixpoint lower (s : string) : string :=
  match s with
  | EmptyString => EmptyString
  | String c s' => String (lower_ascii c) (lower s')
  end.

Module Standards.

(* Conversion factors *)
Definition FT_TO_M : Q := 3048 # 10000.
Definition INCH_TO_M : Q := 254 # 10000.
Definition SQFT_TO_SQM : Q := 92903 # 1000000.

(* The STANDARDS dictionary *)
Definition cement_bag_kg : Q := 50.
Definition cement_bulk_density_kg_m3 : Q := 1440.
Definition sand_bulk_density_kg_m3 : Q := 1600.
Definition aggregate_bulk_density_kg_m3 : Q := 1500.

Definition cement_content_per_m3 : gmap string Q :=
  {[ "m20" := 320; "m25" := 360; "m30" := 400 ]}.

Definition mix_ratios : gmap string (Q * Q * Q) :=
  {[ "m20" := (1, 3 # 2, 3); "m25" := (1, 1, 2); "m30" := (1, 3 # 4, 3 # 2) ]}.

Definition steel_usage_footing : Q := 90.
Definition steel_usage_column : Q := 130.
Definition steel_usage_beam : Q := 120.
Definition steel_usage_slab : Q := 100.

Definition paint_coverage_m2_per_litre : Q := 10.

Definition mortar_ratio : gmap string (Q * Q) :=
  {[ "1:6" := (1, 6); "1:4" := (1, 4); "1:3" := (1, 3) ]}.

End Standards.
Import Standards.

(** A snapshot: sections of named quantities. *)
Abbreviation section := (gmap string Q) (only parsing).
Abbreviation snapshot := (gmap string (gmap string Q)) (only parsing).

Definition calculate_materials (inputs : InputSet) : result snapshot :=
  let num_floors := inject_Z (num_floors inputs) in
  (* concrete *)
  let num_footings := inject_Z (num_footings inputs) in
  let footing_length := footing_length inputs * FT_TO_M in
  let footing_width := footing_width inputs * FT_TO_M in
  let footing_depth := footing_depth inputs * FT_TO_M in
  let pcc_thickness := pcc_thickness inputs * INCH_TO_M in
  let footing_vol := num_footings * footing_length * footing_width * footing_depth in
  let pcc_vol := num_footings * footing_length * footing_width * pcc_thickness in
  let num_columns := inject_Z (num_columns inputs) in
  let column_length := column_length inputs * INCH_TO_M in
  let column_width := column_width inputs * INCH_TO_M in
  let column_height := column_height inputs * FT_TO_M in
  let column_vol := num_columns * num_floors * column_length * column_width * column_height in
  let total_beam_length := total_beam_length inputs * FT_TO_M in
  let beam_width := beam_width inputs * INCH_TO_M in
  let beam_depth := beam_depth inputs * INCH_TO_M in
  let beam_vol := total_beam_length * beam_width * beam_depth * num_floors in
  let slab_area := slab_area inputs * SQFT_TO_SQM in
  let slab_thickness := slab_thickness inputs * INCH_TO_M in
  let slab_vol := slab_area * slab_thickness * num_floors in
  let pcc_volume := round pcc_vol 2 in
  let total_rcc := round (footing_vol + column_vol + beam_vol + slab_vol) 2 in
  let concrete : section :=
    {[ "pcc_volume" := pcc_volume;
       "footing_rcc" := round footing_vol 2;
       "column_rcc" := round column_vol 2;
       "beam_rcc" := round beam_vol 2;
       "slab_rcc" := round slab_vol 2;
       "total_rcc" := total_rcc ]} in
  (* cement and mix *)
  let concrete_grade := lower (default "m20"%string (concrete_grade inputs)) in
  let total_concrete := pcc_volume + total_rcc in
  let cement_kg_per_m3 := default 320 (cement_content_per_m3 !! concrete_grade) in
  let cement_for_concrete_kg := total_concrete * cement_kg_per_m3 in
  do q_concrete <- pydiv cement_for_concrete_kg cement_bag_kg;
  let cement_bags_concrete := ceil q_concrete in
  let '(cement_part, sand_part, agg_part) :=
    default (1, 3 # 2, 3) (mix_ratios !! concrete_grade) in
  let total_parts := cement_part + sand_part + agg_part in
  do sand_frac <- pydiv sand_part total_parts;
  let sand_vol := sand_frac * total_concrete in
  do agg_frac <- pydiv agg_part total_parts;
  let agg_vol := agg_frac * total_concrete in
  let sand_mass_kg := sand_vol * sand_bulk_density_kg_m3 in
  let agg_mass_kg := agg_vol * aggregate_bulk_density_kg_m3 in
  (* mortar and plaster *)
  let mortar_mix := default "1:6"%string (mortar_mix inputs) in
  let external_wall_length := external_wall_length inputs * FT_TO_M in
  let internal_wall_length := internal_wall_length inputs * FT_TO_M in
  let total_wall_length := (external_wall_length + internal_wall_length) * num_floors in
  let wall_thickness := wall_thickness inputs * INCH_TO_M in
  let wall_height := wall_height inputs * FT_TO_M in
  let wall_volume := total_wall_length * wall_thickness * wall_height in
  let mortar_volume := wall_volume * (1 # 10) in
  let mortar_parts := default (1, 6) (mortar_ratio !! mortar_mix) in
  let mortar_total_parts := fst mortar_parts + snd mortar_parts in
  do mortar_cement_frac <- pydiv (fst mortar_parts) mortar_total_parts;
  let cement_for_mortar_kg :=
    mortar_volume * mortar_cement_frac * cement_bulk_density_kg_m3 in
  let internal_plaster_thickness := internal_plaster_thickness inputs * INCH_TO_M in
  let external_plaster_thickness := external_plaster_thickness inputs * INCH_TO_M in
  let plaster_area_internal := total_wall_length * wall_height * (8 # 10) in
  let plaster_area_external := external_wall_length * num_floors * wall_height in
  let plaster_vol_internal := plaster_area_internal * internal_plaster_thickness in
  let plaster_vol_external := plaster_area_external * external_plaster_thickness in
  let total_plaster_vol := plaster_vol_internal + plaster_vol_external in
  let plaster_cement_part := 1 in
  let plaster_sand_part := 3 in
  let plaster_total_parts := plaster_cement_part + plaster_sand_part in
  do plaster_cement_frac <- pydiv plaster_cement_part plaster_total_parts;
  let cement_for_plaster_kg :=
    total_plaster_vol * plaster_cement_frac * cement_bulk_density_kg_m3 in
  do q_mortar <- pydiv cement_for_mortar_kg cement_bag_kg;
  let cement_for_mortar_bags := ceil q_mortar in
  do q_plaster <- pydiv cement_for_plaster_kg cement_bag_kg;
  let cement_for_plaster_bags := ceil q_plaster in
  let for_concrete := round (inject_Z cement_bags_concrete) 0 in
  let for_mortarbrickwork := round (inject_Z cement_for_mortar_bags) 0 in
  let for_plaster := round (inject_Z cement_for_plaster_bags) 0 in
  let cement : section :=
    {[ "for_concrete" := for_concrete;
       "for_mortarbrickwork" := for_mortarbrickwork;
       "for_plaster" := for_plaster;
       "total_bags" := round (for_concrete + for_mortarbrickwork + for_plaster) 0 ]} in
  (* sand *)
  do mortar_sand_frac <- pydiv (snd mortar_parts) mortar_total_parts;
  let mortar_sand_vol := mortar_volume * mortar_sand_frac in
  let mortar_sand_kg := mortar_sand_vol * sand_bulk_density_kg_m3 in
  do plaster_sand_frac <- pydiv plaster_sand_part plaster_total_parts;
  let plaster_sand_vol := total_plaster_vol * plaster_sand_frac in
  let plaster_sand_kg := plaster_sand_vol * sand_bulk_density_kg_m3 in
  let sand : section :=
    {[ "concrete_sand_m3" := round sand_vol 3;
       "concrete_sand_kg" := round sand_mass_kg 1;
       "brickwork_sand_m3" := round mortar_sand_vol 3;
       "brickwork_sand_kg" := round mortar_sand_kg 1;
       "plaster_sand_m3" := round plaster_sand_vol 3;
       "plaster_sand_kg" := round plaster_sand_kg 1;
       "total_sand_kg" := round (sand_mass_kg + mortar_sand_kg + plaster_sand_kg) 1 ]} in
  (* aggregate *)
  let aggregate : section :=
    {[ "concrete_aggregate_m3" := round agg_vol 3;
       "concrete_aggregate_kg" := round agg_mass_kg 1;
       "total_aggregate_kg" := round agg_mass_kg 1 ]} in
  (* steel *)
  let steel_for_footing := footing_vol * steel_usage_footing in
  let steel_for_column := column_vol * steel_usage_column in
  let steel_for_beam := beam_vol * steel_usage_beam in
  let steel_for_slab := slab_vol * steel_usage_slab in
  let steel : section :=
    {[ "footing_steel_kg" := round steel_for_footing 1;
       "column_steel_kg" := round steel_for_column 1;
       "beam_steel_kg" := round steel_for_beam 1;
       "slab_steel_kg" := round steel_for_slab 1;
       "total_steel_kg" :=
         round (steel_for_footing + steel_for_column + steel_for_beam + steel_for_slab) 1 ]} in
  (* masonry *)
  let brick_size :=
    default (230 # 1000) (brick_length_m inputs)
    * default (115 # 1000) (brick_width_m inputs)
    * default (75 # 1000) (brick_height_m inputs) in
  do bricks_per_m3 <- (if Qgt0b brick_size then pydiv 1 brick_size else Ok 0);
  let bricks_required := wall_volume * bricks_per_m3 in
  let masonry : section :=
    {[ "brick_quantity" := round bricks_required 0;
       "mortar_volume_m3" := round mortar_volume 3 ]} in
  (* finishing *)
  let flooring_area_sqft := default 0 (flooring_area inputs) in
  let tile_size_inch := inject_Z (default 12%Z (tile_size inputs)) in
  let tile_area_sqft := (tile_size_inch / 12) * (tile_size_inch / 12) in
  do tiles_required <-
    (if Qgt0b tile_area_sqft then pydiv flooring_area_sqft tile_area_sqft else Ok 0);
  let tiles_with_waste := tiles_required * (105 # 100) in
  let paint_area_m2 := plaster_area_internal + plaster_area_external in
  let paint_coats := inject_Z (default 2%Z (paint_coats inputs)) in
  let coverage := paint_coverage_m2_per_litre in
  do paint_required_l <- pydiv (paint_area_m2 * paint_coats) coverage;
  let finishing : section :=
    {[ "floor_tiles_qty" := round tiles_with_waste 0;
       "paint_liters" := round paint_required_l 2;
       "plaster_volume_m3" := round total_plaster_vol 3;
       "flooring_area_sqft" := round flooring_area_sqft 2;
       "flooring_area_m2" := round (flooring_area_sqft * SQFT_TO_SQM) 3;
       "tile_area_m2" := round (tile_area_sqft * SQFT_TO_SQM) 4 ]} in
  Ok ({[ "concrete" := concrete;
         "cement" := cement;
         "sand" := sand;
         "aggregate" := aggregate;
         "steel" := steel;
         "masonry" := masonry;
         "finishing" := finishing ]} : snapshot).

(* ===================================================================== *)
(** ** Plan variants: [generate_plan_variants]                             *)
(* ===================================================================== *)

Definition adjustment_factor (plan_type : string) : Q :=
  if String.eqb plan_type "economy" then 108 # 100
  else if String.eqb plan_type "premium" then 95 # 100
  else 1.

(** [for key in sec: sec[key] = round(sec[key] * factor, ndigits)]; every
    value of a section is a number, so the [isinstance] test holds. *)
Definition scale_section (factor : Q) (ndigits : nat) (sec : section) : section :=
  (fun v => round (v * factor) ndigits) <$> sec.

(** [if key in sec: sec[key] = round(sec[key] * factor, ndigits)]. *)
Definition scale_key (factor : Q) (ndigits : nat) (key : string) (sec : section)
  : section :=
  alter (fun v => round (v * factor) ndigits) key sec.

(** The result is a value of its own (the [deepcopy]); the input snapshot
    is not changed. *)
Definition generate_plan_variants (materials : snapshot) (plan_type : string)
  : snapshot :=
  let adjusted_materials := materials in
  let factor := adjustment_factor plan_type in
  if negb (Qeq_bool factor 1) then
    let m1 := alter (scale_section factor 2) "concrete" adjusted_materials in
    let m2 := alter (scale_section factor 0) "cement" m1 in
    let m3 :=
      fold_left (fun m sec => alter (scale_section factor 1) sec m)
                ["sand"; "aggregate"; "steel"]%string m2 in
    let m4 := alter (scale_key factor 0 "brick_quantity") "masonry" m3 in
    let m5 := alter (scale_key factor 0 "floor_tiles_qty") "finishing" m4 in
    m5
  else adjusted_materials.

(* ===================================================================== *)
(** ** Costs: [calculate_cost]                                             *)
(* ===================================================================== *)

Definition default_rates : gmap string Q :=
  {[ "cement_per_bag" := 420;
     "sand_per_m3" := 1200;
     "aggregate_per_m3" := 900;
     "steel_per_kg" := 65;
     "brick_per_100" := 350;
     "tile_per_sqm" := 300;
     "paint_per_liter" := 500;
     "plaster_per_m3" := 2000 ]}.

Record CostResult : Type := {
  itemized_costs : gmap string Q;
  material_costs : gmap string Q;
  applied_rates : gmap string Q;
  total_material_cost : Q;
  cost_per_sqft : option Q;
  total_built_area_sqft : Q
}.

(** [materials.get(sec, {})]. *)
Definition get_section (materials : snapshot) (sec : string) : section :=
  default ∅ (materials !! sec).

(** Truth value of [d.get(k)]: the key is there and its number is not zero. *)
Definition truthy_key (d : section) (k : string) : bool :=
  match d !! k with
  | Some v => truthy v
  | None => false
  end.

(** [custom_rates if custom_rates else default_rates]: [None] and the empty
    dictionary are both false. *)
Definition base_rates (custom_rates : option (gmap string Q)) : gmap string Q :=
  match custom_rates with
  | Some r => if Nat.eqb (size r) 0 then default_rates else r
  | None => default_rates
  end.

Definition plan_rates (plan_type : string) (rates : gmap string Q) : gmap string Q :=
  if String.eqb plan_type "economy" then (fun v => v * (90 # 100)) <$> rates
  else if String.eqb plan_type "premium" then (fun v => v * (115 # 100)) <$> rates
  else rates.

Definition calculate_cost (materials : snapshot) (plan_type : string)
    (custom_rates : option (gmap string Q)) : result CostResult :=
  let rates := plan_rates plan_type (base_rates custom_rates) in
  (* cement *)
  let cement_bags := get (get_section materials "cement") "total_bags" 0 in
  do cement_per_bag <- getitem rates "cement_per_bag";
  let cement := cement_bags * cement_per_bag in
  (* sand *)
  let sand_sec := get_section materials "sand" in
  let sand_m3 :=
    get sand_sec "concrete_sand_m3" 0
    + get sand_sec "brickwork_sand_m3" 0
    + get sand_sec "plaster_sand_m3" 0 in
  let sand_m3 :=
    if (Qeq_bool sand_m3 0 && truthy_key sand_sec "total_sand_kg")%bool
    then get sand_sec "total_sand_kg" 0 / 1600
    else sand_m3 in
  do sand_per_m3 <- getitem rates "sand_per_m3";
  let sand := sand_m3 * sand_per_m3 in
  (* aggregate *)
  let agg_sec := get_section materials "aggregate" in
  let agg_m3 := get agg_sec "concrete_aggregate_m3" 0 in
  let agg_m3 :=
    if (Qeq_bool agg_m3 0 && truthy_key agg_sec "concrete_aggregate_kg")%bool
    then get agg_sec "concrete_aggregate_kg" 0 / 1500
    else agg_m3 in
  do aggregate_per_m3 <- getitem rates "aggregate_per_m3";
  let aggregate := agg_m3 * aggregate_per_m3 in
  (* steel *)
  let steel_kg := get (get_section materials "steel") "total_steel_kg" 0 in
  do steel_per_kg <- getitem rates "steel_per_kg";
  let steel := steel_kg * steel_per_kg in
  (* bricks *)
  let brick_qty := get (get_section materials "masonry") "brick_quantity" 0 in
  do brick_per_100 <- getitem rates "brick_per_100";
  let bricks := (brick_qty / 100) * brick_per_100 in
  (* tiles, paint, plaster *)
  let finishing := get_section materials "finishing" in
  let flooring_area_m2 := get finishing "flooring_area_m2" 0 in
  do tile_per_sqm <- getitem rates "tile_per_sqm";
  let tiles := flooring_area_m2 * tile_per_sqm in
  let paint_l := get finishing "paint_liters" 0 in
  do paint_per_liter <- getitem rates "paint_per_liter";
  let paint := paint_l * paint_per_liter in
  let plaster_m3 := get finishing "plaster_volume_m3" 0 in
  do plaster_per_m3 <- getitem rates "plaster_per_m3";
  let plaster := plaster_m3 * plaster_per_m3 in
  (* sum(material_costs.values()), in the order of insertion *)
  let total := 0 + cement + sand + aggregate + steel + bricks + tiles + paint + plaster in
  let total_built_area := get finishing "flooring_area_sqft" 0 in
  do per_sqft <-
    (if truthy total_built_area
     then do q <- pydiv total total_built_area; Ok (Some q)
     else Ok None);
  let costs : gmap string Q :=
    {[ "cement" := round cement 2;
       "sand" := round sand 2;
       "aggregate" := round aggregate 2;
       "steel" := round steel 2;
       "bricks" := round bricks 2;
       "tiles" := round tiles 2;
       "paint" := round paint 2;
       "plaster" := round plaster 2 ]} in
  Ok {| itemized_costs := costs;
        material_costs := costs;
        applied_rates := rates;
        total_material_cost := round total 2;
        cost_per_sqft := (fun c => round c 2) <$> per_sqft;
        total_built_area_sqft := round total_built_area 2 |}.

(* ===================================================================== *)
(** ** Bill of quantities: [generate_boq]                                  *)
(* ===================================================================== *)

Record BOQRow : Type := {
  item : string;
  quantity : Q;
  unit : string;
  rate : option Q;
  amount : option Q
}.

Definition generate_boq (materials : snapshot) (cost : CostResult) : list BOQRow :=
  let concrete := get_section materials "concrete" in
  let cement := get_section materials "cement" in
  let sand := get_section materials "sand" in
  let aggregate := get_section materials "aggregate" in
  let steel := get_section materials "steel" in
  let masonry := get_section materials "masonry" in
  let finishing := get_section materials "finishing" in
  let rates := applied_rates cost in
  let itemized := itemized_costs cost in
  [ {| item := "PCC (Plain Cement Concrete)"; quantity := get concrete "pcc_volume" 0;
       unit := "m3"; rate := None; amount := None |};
    {| item := "RCC Footing Concrete"; quantity := get concrete "footing_rcc" 0;
       unit := "m3"; rate := None; amount := None |};
    {| item := "RCC Column Concrete"; quantity := get concrete "column_rcc" 0;
       unit := "m3"; rate := None; amount := None |};
    {| item := "RCC Beam Concrete"; quantity := get concrete "beam_rcc" 0;
       unit := "m3"; rate := None; amount := None |};
    {| item := "RCC Slab Concrete"; quantity := get concrete "slab_rcc" 0;
       unit := "m3"; rate := None; amount := None |};
    {| item := "Cement"; quantity := get cement "total_bags" 0;
       unit := "bags"; rate := rates !! "cement_per_bag";
       amount := itemized !! "cement" |};
    {| item := "Sand";
       quantity := round (get sand "concrete_sand_m3" 0
                          + get sand "brickwork_sand_m3" 0
                          + get sand "plaster_sand_m3" 0) 3;
       unit := "m3"; rate := rates !! "sand_per_m3";
       amount := itemized !! "sand" |};
    {| item := "Aggregate"; quantity := get aggregate "concrete_aggregate_m3" 0;
       unit := "m3"; rate := rates !! "aggregate_per_m3";
       amount := itemized !! "aggregate" |};
    {| item := "Steel Reinforcement"; quantity := get steel "total_steel_kg" 0;
       unit := "kg"; rate := rates !! "steel_per_kg";
       amount := itemized !! "steel" |};
    {| item := "Bricks"; quantity := get masonry "brick_quantity" 0;
       unit := "nos"; rate := rates !! "brick_per_100";
       amount := itemized !! "bricks" |};
    {| item := "Floor Tiles"; quantity := get finishing "flooring_area_m2" 0;
       unit := "m2"; rate := rates !! "tile_per_sqm";
       amount := itemized !! "tiles" |};
    {| item := "Paint"; quantity := get finishing "paint_liters" 0;
       unit := "liters"; rate := rates !! "paint_per_liter";
       amount := itemized !! "paint" |};
    {| item := "Plaster"; quantity := get finishing "plaster_volume_m3" 0;
       unit := "m3"; rate := rates !! "plaster_per_m3";
       amount := itemized !! "plaster" |} ].

(* ===================================================================== *)
(** ** Vocabulary of the properties                                        *)
(* ===================================================================== *)

(** The number stored under [key] in the section [sec], when both exist. *)
Definition field (m : snapshot) (sec key : string) : option Q :=
  m !! sec ≫= (.!! key).

Fixpoint Qsum (l : list Q) : Q :=
  match l with
  | [] => 0
  | x :: l' => x + Qsum l'
  end.

(** The section [sec] declares [total] and every one of [parts], and the
    total is the sum of the parts up to [tol]. *)
Definition total_within (m : snapshot) (sec total : string) (parts : list string)
    (tol : Q) : Prop :=
  exists (t : Q) (vs : list Q),
    field m sec total = Some t
    /\ Forall2 (fun k v => field m sec k = Some v) parts vs
    /\ Qabs (t - Qsum vs) <= tol.

(** The four declared totals of a snapshot, each with its tolerance. *)
Definition totals_within (m : snapshot) (e_rcc e_bags e_steel e_sand : Q) : Prop :=
  total_within m "concrete" "total_rcc"
    ["footing_rcc"; "column_rcc"; "beam_rcc"; "slab_rcc"]%string e_rcc
  /\ total_within m "cement" "total_bags"
    ["for_concrete"; "for_mortarbrickwork"; "for_plaster"]%string e_bags
  /\ total_within m "steel" "total_steel_kg"
    ["footing_steel_kg"; "column_steel_kg"; "beam_steel_kg"; "slab_steel_kg"]%string
    e_steel
  /\ total_within m "sand" "total_sand_kg"
    ["concrete_sand_kg"; "brickwork_sand_kg"; "plaster_sand_kg"]%string e_sand.

(** The fields [generate_plan_variants] scales, with the number of decimals
    it rounds them to. *)
Definition adjusted_digits (sec key : string) : option nat :=
  if String.eqb sec "concrete" then Some 2%nat
  else if String.eqb sec "cement" then Some 0%nat
  else if (String.eqb sec "sand" || String.eqb sec "aggregate"
           || String.eqb sec "steel")%bool then Some 1%nat
  else if (String.eqb sec "masonry" && String.eqb key "brick_quantity")%bool
       then Some 0%nat
  else if (String.eqb sec "finishing" && String.eqb key "floor_tiles_qty")%bool
       then Some 0%nat
  else None.

(** Every number of the snapshot is non-negative. *)
Definition nonneg_snapshot (m : snapshot) : Prop :=
  forall sec key v, field m sec key = Some v -> 0 <= v.

(** [v] has at most [n] decimals. *)
Definition has_decimals (n : nat) (v : Q) : Prop :=
  exists k : Z, v == inject_Z k / pow10 n.

(** The 8 keys of a rate table. *)
Definition required_rate_keys : list string :=
  [ "cement_per_bag"; "sand_per_m3"; "aggregate_per_m3"; "steel_per_kg";
    "brick_per_100"; "tile_per_sqm"; "paint_per_liter"; "plaster_per_m3" ]%string.

Definition rates_complete (r : gmap string Q) : Prop :=
  Forall (fun k => is_Some (r !! k)) required_rate_keys.

(** The 8 cost categories, in the order in which they are priced. *)
Definition cost_categories : list string :=
  [ "cement"; "sand"; "aggregate"; "steel"; "bricks"; "tiles"; "paint";
    "plaster" ]%string.

(** [flooring_area_sqft] as [calculate_cost] reads it: [0] when absent. *)
Definition flooring_area_sqft (m : snapshot) : Q :=
  get (get_section m "finishing") "flooring_area_sqft" 0.

(** [d[k]] for every [k] of [ks], when all are there. *)
Fixpoint lookups (d : gmap string Q) (ks : list string) : option (list Q) :=
  match ks with
  | [] => Some []
  | k :: ks' =>
      match d !! k, lookups d ks' with
      | Some v, Some vs => Some (v :: vs)
      | _, _ => None
      end
  end.

(** The sum of the 8 category costs as the result reports them. *)
Definition reported_sum (res : CostResult) : option Q :=
  Qsum <$> lookups (itemized_costs res) cost_categories.

Definition total_is_reported_sum (res : CostResult) : Prop :=
  exists s : Q, reported_sum res = Some s /\ total_material_cost res == s.

(** A snapshot with one bag of cement and one kilogram of steel, and a rate
    table with rates below one cent. *)
Definition one_bag_one_kg : snapshot :=
  {[ "cement" := {[ "total_bags" := 1 ]};
     "steel" := {[ "total_steel_kg" := 1 ]} ]}.

Definition sub_cent_rates : gmap string Q :=
  {[ "cement_per_bag" := 4 # 1000; "sand_per_m3" := 1;
     "aggregate_per_m3" := 1; "steel_per_kg" := 4 # 1000;
     "brick_per_100" := 1; "tile_per_sqm" := 1;
     "paint_per_liter" := 1; "plaster_per_m3" := 1 ]}.

(** A rate table with the cement rate only. *)
Definition cement_only_rates : gmap string Q := {[ "cement_per_bag" := 400 ]}.

(** A snapshot with a floor of 1200 sqft and nothing else. *)
Definition floor_only : snapshot :=
  {[ "finishing" := {[ "flooring_area_sqft" := 1200 ]} ]}.

(** The scenario of the specification, with the brick length left open. *)
Definition scenario_with_bricks (brick_length : option Q) : InputSet :=
  {| num_floors := 2; structure_type := "rcc_framed";
     num_footings := 8; footing_length := 4; footing_width := 4;
     footing_depth := 1; pcc_thickness := 3;
     num_columns := 8; column_length := 12; column_width := 12;
     column_height := 10;
     total_beam_length := 200; beam_width := 9; beam_depth := 12;
     slab_area := 1200; slab_thickness := 5;
     concrete_grade := Some "m20"%string; mortar_mix := Some "1:6"%string;
     external_wall_length := 140; internal_wall_length := 80;
     wall_thickness := 9; wall_height := 10;
     internal_plaster_thickness := 1 # 2; external_plaster_thickness := 3 # 4;
     brick_length_m := brick_length; brick_width_m := None;
     brick_height_m := None;
     flooring_area := Some 1200; tile_size := Some 12%Z;
     paint_coats := Some 2%Z |}.

Definition scenario : InputSet := scenario_with_bricks None.

(** The volume of one brick, as [calculate_materials] computes it. *)
Definition brick_volume (inputs : InputSet) : Q :=
  default (230 # 1000) (brick_length_m inputs)
  * default (115 # 1000) (brick_width_m inputs)
  * default (75 # 1000) (brick_height_m inputs).

(** The field is there and its number is [q]; and the same as a test. *)
Definition field_eq (m : snapshot) (sec key : string) (q : Q) : Prop :=
  exists v : Q, field m sec key = Some v /\ v == q.

Definition field_is (m : snapshot) (sec key : string) (q : Q) : bool :=
  match field m sec key with
  | Some v => Qeq_bool v q
  | None => false
  end.

(** On every adjusted field the three plans are ordered:
    economy >= standard >= premium. *)
Definition plans_ordered (m : snapshot) : Prop :=
  forall (sec key : string) (n : nat) (ve vs vp : Q),
    adjusted_digits sec key = Some n ->
    field (generate_plan_variants m "economy") sec key = Some ve ->
    field (generate_plan_variants m "standard") sec key = Some vs ->
    field (generate_plan_variants m "premium") sec key = Some vp ->
    vp <= vs /\ vs <= ve.

(** A snapshot with 0.004 m3 of plain concrete. *)
Definition thin_pcc : snapshot :=
  {[ "concrete" := {[ "pcc_volume" := 4 # 1000 ]} ]}.

(** A one-room building of 6 ft by 6 ft. *)
Definition small_room : InputSet :=
  {| num_floors := 1; structure_type := "rcc_framed";
     num_footings := 4; footing_length := 2; footing_width := 2;
     footing_depth := 1; pcc_thickness := 3;
     num_columns := 4; column_length := 9; column_width := 9;
     column_height := 9;
     total_beam_length := 24; beam_width := 9; beam_depth := 9;
     slab_area := 36; slab_thickness := 4;
     concrete_grade := Some "m20"%string; mortar_mix := Some "1:6"%string;
     external_wall_length := 24; internal_wall_length := 4;
     wall_thickness := 9; wall_height := 9;
     internal_plaster_thickness := 1 # 2; external_plaster_thickness := 3 # 4;
     brick_length_m := None; brick_width_m := None; brick_height_m := None;
     flooring_area := Some 36; tile_size := Some 12%Z;
     paint_coats := Some 2%Z |}.

(** A snapshot with 12 bags of cement for concrete. *)
Definition twelve_bags : snapshot :=
  {[ "cement" := {[ "for_concrete" := 12 ]} ]}.

(** Half a unit of the last decimal, once for each element of a list. *)
Definition half_units (n : nat) (A : Type) (l : list A) : Q :=
  Qsum (map (fun _ => (1 # 2) / pow10 n) l).

(* ===================================================================== *)
(** ** Floor plan: the layout of [generate_floor_plan_svg]                 *)
(* ===================================================================== *)

(** [int(x)] on a number: the integer towards zero. *)
Definition int_of (x : Q) : Z :=
  if Qle_bool 0 x then Qfloor x else Qceiling x.

Record rect : Type := {
  rect_x : Q;
  rect_y : Q;
  rect_width : Q;
  rect_height : Q
}.

(** What [generate_floor_plan_svg] computes and then writes into the markup:
    the size of the canvas, the rectangle of the outer walls, the rectangle
    of every room in the order of the markup (named as its comment names
    it), and the title.  The markup text itself, the labels inside the rooms
    and the legend are not modelled. *)
Record floor_plan : Type := {
  canvas_width : Z;
  canvas_height : Z;
  outer_walls : rect;
  rooms : list (string * rect);
  plan_title : string
}.

Definition generate_floor_plan (plot_length plot_width : Q)
    (layout_type : string) : floor_plan :=
  let scale := 3 in
  let width := Z.max (int_of (plot_length * scale)) 600 in
  let height := Z.max (int_of (plot_width * scale)) 500 in
  let padding := 30 in
  let room_gap := 25 in
  let usable_width := inject_Z width - 2 * padding in
  let usable_height := inject_Z height - 2 * padding in
  let rooms :=
    if String.eqb layout_type "layout1" then
      let kitchen_width := (usable_width - room_gap) * (28 # 100) in
      let rooms_width := usable_width - kitchen_width - room_gap in
      let bed1_height := (usable_height - room_gap) * (48 # 100) in
      let bed2_height := (usable_height - room_gap) * (48 # 100) in
      [ ("KITCHEN",
         {| rect_x := padding; rect_y := padding;
            rect_width := kitchen_width; rect_height := usable_height |});
        ("BEDROOM 1",
         {| rect_x := padding + kitchen_width + room_gap; rect_y := padding;
            rect_width := rooms_width * (5 # 10) - room_gap / 2;
            rect_height := bed1_height |});
        ("BEDROOM 2",
         {| rect_x := padding + kitchen_width + room_gap
                      + rooms_width * (5 # 10) + room_gap / 2;
            rect_y := padding;
            rect_width := rooms_width * (5 # 10) - room_gap / 2;
            rect_height := bed1_height |});
        ("MASTER BEDROOM",
         {| rect_x := padding + kitchen_width + room_gap;
            rect_y := padding + bed1_height + room_gap;
            rect_width := rooms_width * (65 # 100) - room_gap / 2;
            rect_height := bed2_height |});
        ("BATHROOM",
         {| rect_x := padding + kitchen_width + room_gap
                      + rooms_width * (65 # 100) + room_gap / 2;
            rect_y := padding + bed1_height + room_gap;
            rect_width := rooms_width * (35 # 100) - room_gap / 2;
            rect_height := bed2_height |}) ]%string
    else
      let bed_width := (usable_width - 2 * room_gap) / 3 in
      let bath_width := (usable_width - 2 * room_gap) / 4 in
      let kitchen_width := (usable_width - 2 * room_gap) * (35 # 100) in
      let top_height := (usable_height - room_gap) * (5 # 10) in
      let bottom_height := (usable_height - room_gap) * (5 # 10) in
      [ ("BEDROOM 1",
         {| rect_x := padding; rect_y := padding;
            rect_width := bed_width; rect_height := top_height |});
        ("BEDROOM 2",
         {| rect_x := padding + bed_width + room_gap; rect_y := padding;
            rect_width := bed_width; rect_height := top_height |});
        ("MASTER BEDROOM",
         {| rect_x := padding + 2 * bed_width + 2 * room_gap; rect_y := padding;
            rect_width := usable_width - 2 * bed_width - 2 * room_gap;
            rect_height := top_height |});
        ("BATHROOM",
         {| rect_x := padding; rect_y := padding + top_height + room_gap;
            rect_width := bath_width; rect_height := bottom_height |});
        ("KITCHEN",
         {| rect_x := padding + bath_width + room_gap;
            rect_y := padding + top_height + room_gap;
            rect_width := kitchen_width; rect_height := bottom_height |});
        ("LIVING/DINING",
         {| rect_x := padding + bath_width + kitchen_width + 2 * room_gap;
            rect_y := padding + top_height + room_gap;
            rect_width := usable_width - bath_width - kitchen_width - 2 * room_gap;
            rect_height := bottom_height |}) ]%string in
  {| canvas_width := width;
     canvas_height := height;
     outer_walls :=
       {| rect_x := padding; rect_y := padding;
          rect_width := usable_width; rect_height := usable_height |};
     rooms := rooms;
     plan_title :=
       if String.eqb layout_type "layout1" then "LAYOUT 1: OPEN CONCEPT"
       else "LAYOUT 2: SEPARATE ROOMS" |}.

(** The rectangle [r] has a positive width and height and lies within [o]. *)
Definition inside (o r : rect) : Prop :=
  0 < rect_width r /\ 0 < rect_height r
  /\ rect_x o <= rect_x r
  /\ rect_x r + rect_width r <= rect_x o + rect_width o
  /\ rect_y o <= rect_y r
  /\ rect_y r + rect_height r <= rect_y o + rect_height o.

(** The rectangles [a] and [b] are at least [gap] apart, side by side or one
    above the other. *)
Definition apart (gap : Q) (a b : rect) : Prop :=
  rect_x a + rect_width a + gap <= rect_x b
  \/ rect_x b + rect_width b + gap <= rect_x a
  \/ rect_y a + rect_height a + gap <= rect_y b
  \/ rect_y b + rect_height b + gap <= rect_y a.

(** The rooms of a plan lie within the outer walls and are at least 25
    apart from one another. *)
Definition well_laid_out (fp : floor_plan) : Prop :=
  Forall (fun room => inside (outer_walls fp) (snd room)) (rooms fp)
  /\ ForallOrdPairs (fun a b => apart 25 (snd a) (snd b)) (rooms fp).

(* ===================================================================== *)
(** ** Rates by plan: [get_rates_by_plan] of [cost_loader.py]              *)
(* ===================================================================== *)

(** [adjusted = dict(base_rates)], then every value is multiplied in place
    for 'economy' and for 'premium'. *)
Definition get_rates_by_plan (base_rates : gmap string Q) (plan_type : string)
  : gmap string Q :=
  let adjusted := base_rates in
  if String.eqb plan_type "economy" then (fun v => v * (90 # 100)) <$> adjusted
  else if String.eqb plan_type "premium" then (fun v => v * (115 # 100)) <$> adjusted
  else adjusted.

(* ===================================================================== *)
(** ** Rate loader: [load_material_costs] of [cost_loader.py]              *)
(* ===================================================================== *)

(** A cell of a sheet read with [values_only=True]: nothing, a text or a
    number. *)
Inductive cell : Type :=
| CellNone
| CellText (s : string)
| CellNumber (q : Q).

(** What the loader finds on disk: no openpyxl, no file, a file that
    [load_workbook] cannot read (any exception), or a workbook with its
    sheets, each a name and its rows. *)
Inductive workbook_file : Type :=
| NoOpenpyxl
| FileMissing
| LoadRaises
| Workbook (sheets : list (string * list (list cell))).

(** The default table of the loader, a copy of the one of [calculate_cost]. *)
Definition loader_default_rates : gmap string Q :=
  {[ "cement_per_bag" := 420;
     "sand_per_m3" := 1200;
     "aggregate_per_m3" := 900;
     "steel_per_kg" := 65;
     "brick_per_100" := 350;
     "tile_per_sqm" := 300;
     "paint_per_liter" := 500;
     "plaster_per_m3" := 2000 ]}.

(** White space of [str.strip] among the characters of one byte. *)
Definition is_space (c : ascii) : bool :=
  let n := nat_of_ascii c in
  ((Nat.leb 9 n && Nat.leb n 13) || (Nat.leb 28 n && Nat.leb n 32))%bool.

Fixpoint lstrip (s : string) : string :=
  match s with
  | EmptyString => EmptyString
  | String c s' => if is_space c then lstrip s' else s
  end.

Definition string_rev (s : string) : string :=
  string_of_list_ascii (List.rev (list_ascii_of_string s)).

Definition strip (s : string) : string :=
  string_rev (lstrip (string_rev (lstrip s))).

(** [sub in s] on strings. *)
Fixpoint contains (sub s : string) : bool :=
  (String.prefix sub s
   || match s with
      | EmptyString => false
      | String _ s' => contains sub s'
      end)%bool.

(** Truth value of a cell: [None], the empty text and 0 are false. *)
Definition cell_truthy (c : cell) : bool :=
  match c with
  | CellNone => false
  | CellText s => negb (String.eqb s "")
  | CellNumber q => truthy q
  end.

Section Loader.

(** Two functions of Python are left open: [str] of a number and [float] of
    a text ([None] where [float] raises [ValueError]). *)
Variable str_of_number : Q -> string.
Variable float_of_text : string -> option Q.

Definition str_of_cell (c : cell) : string :=
  match c with
  | CellNone => "None"
  | CellText s => s
  | CellNumber q => str_of_number q
  end.

(** [float(c)], with [None] for the [ValueError] and the [TypeError] that
    the loader catches. *)
Definition float_of_cell (c : cell) : option Q :=
  match c with
  | CellNone => None
  | CellText s => float_of_text s
  | CellNumber q => Some q
  end.

(** One turn of the loop over the rows. *)
Definition load_row (rates : gmap string Q) (row : list cell) : gmap string Q :=
  match row with
  | [] => rates
  | c0 :: _ =>
      if negb (cell_truthy c0) then rates
      else
        let material_name := lower (strip (str_of_cell c0)) in
        let cost :=
          match row !! 2%nat with
          | Some c2 => if cell_truthy c2 then float_of_cell c2 else None
          | None => None
          end in
        match cost with
        | None => rates
        | Some cost =>
            if String.eqb material_name "" then rates
            else if contains "cement" material_name
              then <["cement_per_bag" := cost]> rates
            else if contains "sand" material_name
              then <["sand_per_m3" := cost]> rates
            else if (contains "aggregate" material_name
                     || contains "gravel" material_name
                     || contains "chips" material_name)%bool
              then <["aggregate_per_m3" := cost]> rates
            else if (contains "steel" material_name
                     || contains "rebar" material_name
                     || contains "reinforcement" material_name)%bool
              then <["steel_per_kg" := cost]> rates
            else if contains "brick" material_name
              then <["brick_per_100" := cost]> rates
            else if (contains "tile" material_name
                     || contains "flooring" material_name)%bool
              then <["tile_per_sqm" := cost]> rates
            else if (contains "paint" material_name
                     || contains "coating" material_name)%bool
              then <["paint_per_liter" := cost]> rates
            else if (contains "plaster" material_name
                     || contains "finish" material_name)%bool
              then <["plaster_per_m3" := cost]> rates
            else rates
        end
  end.

(** The sheet to read: the first of 'Materials', 'Costs', 'Material Costs',
    'Rates' that the workbook has, else its first sheet; [None] when there is
    no sheet at all (the [IndexError] that the loader catches). *)
Definition select_sheet (sheets : list (string * list (list cell)))
  : option (list (list cell)) :=
  let sheet_names := map fst sheets in
  match List.find (fun name => existsb (String.eqb name) sheet_names)
          [ "Materials"; "Costs"; "Material Costs"; "Rates" ]%string with
  | Some name =>
      snd <$> List.find (fun sheet => String.eqb (fst sheet) name) sheets
  | None => snd <$> head sheets
  end.

Definition load_material_costs (file : workbook_file) : gmap string Q :=
  match file with
  | NoOpenpyxl => loader_default_rates
  | FileMissing => loader_default_rates
  | LoadRaises => loader_default_rates
  | Workbook sheets =>
      match select_sheet sheets with
      | None => loader_default_rates
      | Some ws => fold_left load_row (tail ws) loader_default_rates
      end
  end.

End Loader.

(* ===================================================================== *)
(** ** The three plans: [estimate] of [app.py] and of [app_exe.py]         *)
(* ===================================================================== *)

Record plan_estimate : Type := {
  plan_materials : snapshot;
  plan_cost : CostResult;
  plan_boq : list BOQRow
}.

(** The computation of [estimate] in [app.py], after the form is validated
    and before the page is rendered; [MATERIAL_RATES] is what the loader
    returned when the program started. *)
Definition estimate (inputs : InputSet) (MATERIAL_RATES : gmap string Q)
  : result (plan_estimate * plan_estimate * plan_estimate) :=
  do base_materials <- calculate_materials inputs;
  let economy_materials := generate_plan_variants base_materials "economy" in
  do economy_cost <- calculate_cost economy_materials "economy" (Some MATERIAL_RATES);
  let economy_boq := generate_boq economy_materials economy_cost in
  let standard_materials := generate_plan_variants base_materials "standard" in
  do standard_cost <-
    calculate_cost standard_materials "standard" (Some MATERIAL_RATES);
  let standard_boq := generate_boq standard_materials standard_cost in
  let premium_materials := generate_plan_variants base_materials "premium" in
  do premium_cost <- calculate_cost premium_materials "premium" (Some MATERIAL_RATES);
  let premium_boq := generate_boq premium_materials premium_cost in
  Ok ({| plan_materials := economy_materials; plan_cost := economy_cost;
         plan_boq := economy_boq |},
      {| plan_materials := standard_materials; plan_cost := standard_cost;
         plan_boq := standard_boq |},
      {| plan_materials := premium_materials; plan_cost := premium_cost;
         plan_boq := premium_boq |}).

(** The same in [app_exe.py], where [calculate_cost] gets no rate table. *)
Definition estimate_exe (inputs : InputSet)
  : result (plan_estimate * plan_estimate * plan_estimate) :=
  do base_materials <- calculate_materials inputs;
  let economy_materials := generate_plan_variants base_materials "economy" in
  do economy_cost <- calculate_cost economy_materials "economy" None;
  let economy_boq := generate_boq economy_materials economy_cost in
  let standard_materials := generate_plan_variants base_materials "standard" in
  do standard_cost <- calculate_cost standard_materials "standard" None;
  let standard_boq := generate_boq standard_materials standard_cost in
  let premium_materials := generate_plan_variants base_materials "premium" in
  do premium_cost <- calculate_cost premium_materials "premium" None;
  let premium_boq := generate_boq premium_materials premium_cost in
  Ok ({| plan_materials := economy_materials; plan_cost := economy_cost;
         plan_boq := economy_boq |},
      {| plan_materials := standard_materials; plan_cost := standard_cost;
         plan_boq := standard_boq |},
      {| plan_materials := premium_materials; plan_cost := premium_cost;
         plan_boq := premium_boq |}).

(** A row that gives no cost: it has no third cell, or the third cell is
    empty, an empty text or 0. *)
Definition no_cost (row : list cell) : Prop :=
  forall c2 : cell, row !! 2%nat = Some c2 -> cell_truthy c2 = false.

(** A workbook with a sheet 'Rates' that gives cement the cost 0. *)
Definition zero_cost_book : list (string * list (list cell)) :=
  [ ("Rates"%string,
     [ [ CellText "Material"; CellText "Unit"; CellText "Cost" ];
       [ CellText "Cement"; CellText "bag"; CellNumber 0 ] ]) ].

(* ===================================================================== *)
(** ** Vocabulary of the further properties                                *)
(* ===================================================================== *)

(** No count and no dimension of the inputs is negative.  The brick
    dimensions and the tile size are left free. *)
Definition nonneg_inputs (i : InputSet) : Prop :=
  (0 <= num_floors i)%Z /\ (0 <= num_footings i)%Z /\ (0 <= num_columns i)%Z
  /\ 0 <= footing_length i /\ 0 <= footing_width i /\ 0 <= footing_depth i
  /\ 0 <= pcc_thickness i
  /\ 0 <= column_length i /\ 0 <= column_width i /\ 0 <= column_height i
  /\ 0 <= total_beam_length i /\ 0 <= beam_width i /\ 0 <= beam_depth i
  /\ 0 <= slab_area i /\ 0 <= slab_thickness i
  /\ 0 <= external_wall_length i /\ 0 <= internal_wall_length i
  /\ 0 <= wall_thickness i /\ 0 <= wall_height i
  /\ 0 <= internal_plaster_thickness i /\ 0 <= external_plaster_thickness i
  /\ 0 <= default 0 (flooring_area i)
  /\ (0 <= default 2 (paint_coats i))%Z.

(** The inputs [i] with another concrete grade and another mortar mix. *)
Definition with_mixes (grade mortar : option string) (i : InputSet) : InputSet :=
  {| num_floors := num_floors i; structure_type := structure_type i;
     num_footings := num_footings i; footing_length := footing_length i;
     footing_width := footing_width i; footing_depth := footing_depth i;
     pcc_thickness := pcc_thickness i;
     num_columns := num_columns i; column_length := column_length i;
     column_width := column_width i; column_height := column_height i;
     total_beam_length := total_beam_length i; beam_width := beam_width i;
     beam_depth := beam_depth i;
     slab_area := slab_area i; slab_thickness := slab_thickness i;
     concrete_grade := grade; mortar_mix := mortar;
     external_wall_length := external_wall_length i;
     internal_wall_length := internal_wall_length i;
     wall_thickness := wall_thickness i; wall_height := wall_height i;
     internal_plaster_thickness := internal_plaster_thickness i;
     external_plaster_thickness := external_plaster_thickness i;
     brick_length_m := brick_length_m i; brick_width_m := brick_width_m i;
     brick_height_m := brick_height_m i;
     flooring_area := flooring_area i; tile_size := tile_size i;
     paint_coats := paint_coats i |}.

(** The fields that [calculate_materials] rounds to the number of decimals
    to which [generate_plan_variants] rounds them again. *)
Definition same_digits_fields : list (string * string) :=
  [ ("concrete", "pcc_volume"); ("concrete", "footing_rcc");
    ("concrete", "column_rcc"); ("concrete", "beam_rcc");
    ("concrete", "slab_rcc"); ("concrete", "total_rcc");
    ("cement", "for_concrete"); ("cement", "for_mortarbrickwork");
    ("cement", "for_plaster"); ("cement", "total_bags");
    ("sand", "concrete_sand_kg"); ("sand", "brickwork_sand_kg");
    ("sand", "plaster_sand_kg"); ("sand", "total_sand_kg");
    ("aggregate", "concrete_aggregate_kg"); ("aggregate", "total_aggregate_kg");
    ("steel", "footing_steel_kg"); ("steel", "column_steel_kg");
    ("steel", "beam_steel_kg"); ("steel", "slab_steel_kg");
    ("steel", "total_steel_kg");
    ("masonry", "brick_quantity"); ("finishing", "floor_tiles_qty") ]%string.

(** Economy >= standard >= premium on one field that is there. *)
Definition field_ordered (m : snapshot) (sec key : string) : Prop :=
  exists ve vs vp : Q,
    field (generate_plan_variants m "economy") sec key = Some ve
    /\ field (generate_plan_variants m "standard") sec key = Some vs
    /\ field (generate_plan_variants m "premium") sec key = Some vp
    /\ vp <= vs /\ vs <= ve.

(** The sand volume and the aggregate volume that [calculate_cost] prices:
    the volumes of the snapshot, or the mass over the bulk density when the
    volume is zero and a mass is there. *)
Definition priced_sand_m3 (m : snapshot) : Q :=
  let sand_sec := get_section m "sand" in
  let sand_m3 :=
    get sand_sec "concrete_sand_m3" 0
    + get sand_sec "brickwork_sand_m3" 0
    + get sand_sec "plaster_sand_m3" 0 in
  if (Qeq_bool sand_m3 0 && truthy_key sand_sec "total_sand_kg")%bool
  then get sand_sec "total_sand_kg" 0 / 1600
  else sand_m3.

Definition priced_aggregate_m3 (m : snapshot) : Q :=
  let agg_sec := get_section m "aggregate" in
  let agg_m3 := get agg_sec "concrete_aggregate_m3" 0 in
  if (Qeq_bool agg_m3 0 && truthy_key agg_sec "concrete_aggregate_kg")%bool
  then get agg_sec "concrete_aggregate_kg" 0 / 1500
  else agg_m3.

(** The quantity each of the 8 rates multiplies, in the order of
    [required_rate_keys]. *)
Definition priced_quantities (m : snapshot) : list Q :=
  [ get (get_section m "cement") "total_bags" 0;
    priced_sand_m3 m;
    priced_aggregate_m3 m;
    get (get_section m "steel") "total_steel_kg" 0;
    get (get_section m "masonry") "brick_quantity" 0 / 100;
    get (get_section m "finishing") "flooring_area_m2" 0;
    get (get_section m "finishing") "paint_liters" 0;
    get (get_section m "finishing") "plaster_volume_m3" 0 ].

(** Every rate of the table is non-negative. *)
Definition nonneg_rates (r : gmap string Q) : Prop :=
  forall k v, r !! k = Some v -> 0 <= v.

(** The three sand volumes of a snapshot, added as [calculate_cost] and
    [generate_boq] add them. *)
Definition sand_volume_sum (m : snapshot) : Q :=
  get (get_section m "sand") "concrete_sand_m3" 0
  + get (get_section m "sand") "brickwork_sand_m3" 0
  + get (get_section m "sand") "plaster_sand_m3" 0.

(** A snapshot that gives the sand by mass only. *)
Definition sand_by_mass : snapshot :=
  {[ "sand" := {[ "total_sand_kg" := 3200 ]} ]}.

(* ===================================================================== *)
(** ** Facts on rounding                                                   *)
(* ===================================================================== *)

Section Rounding.

Lemma pow10_pos (n : nat) : 0 < pow10 n.
Proof.
  unfold pow10. change 0 with (inject_Z 0). rewrite <- Zlt_Qlt.
  apply Z.pow_pos_nonneg; lia.
Qed.

Lemma floor_bounds (x : Q) :
  inject_Z (Qfloor x) <= x /\ x < inject_Z (Qfloor x) + 1.
Proof.
  split; [apply Qfloor_le|].
  pose proof (Qlt_floor x) as H.
  rewrite inject_Z_plus in H. exact H.
Qed.

Lemma round_half_even_err (x : Q) :
  x - (1 # 2) <= inject_Z (round_half_even x) <= x + (1 # 2).
Proof.
  unfold round_half_even.
  destruct (floor_bounds x) as [Hlo Hhi].
  destruct (Qcompare_spec (x - inject_Z (Qfloor x)) (1 # 2)) as [He | Hl | Hg].
  - destruct (Z.even (Qfloor x));
      [|rewrite inject_Z_plus; change (inject_Z 1) with 1]; lra.
  - lra.
  - rewrite inject_Z_plus. change (inject_Z 1) with 1. lra.
Qed.

#[global] Instance round_half_even_proper : Proper (Qeq ==> eq) round_half_even.
Proof.
  intros x y Hxy. unfold round_half_even.
  assert (Hf : Qfloor x = Qfloor y) by (rewrite Hxy; reflexivity).
  rewrite Hf.
  assert (Hc : (x - inject_Z (Qfloor y) ?= 1 # 2) = (y - inject_Z (Qfloor y) ?= 1 # 2))
    by (rewrite Hxy; reflexivity).
  rewrite Hc. reflexivity.
Qed.

#[global] Instance round_proper : Proper (Qeq ==> eq ==> Qeq) round.
Proof.
  intros x y Hxy n m <-. unfold round.
  assert (H : round_half_even (x * pow10 n) = round_half_even (y * pow10 n))
    by (rewrite Hxy; reflexivity).
  rewrite H. reflexivity.
Qed.

Lemma round_half_even_Z (k : Z) : round_half_even (inject_Z k) = k.
Proof.
  unfold round_half_even. rewrite Qfloor_Z.
  assert (H : inject_Z k - inject_Z k == 0) by ring.
  assert (Hc : (inject_Z k - inject_Z k ?= 1 # 2) = Lt).
  { rewrite H. reflexivity. }
  rewrite Hc. reflexivity.
Qed.

Lemma round_half_even_mono (x y : Q) :
  x <= y -> (round_half_even x <= round_half_even y)%Z.
Proof.
  intros Hxy.
  destruct (Z.eq_dec (Qfloor x) (Qfloor y)) as [Heq | Hne].
  - (* same integer part: compare the fractional parts *)
    unfold round_half_even. rewrite Heq.
    destruct (Qcompare_spec (x - inject_Z (Qfloor y)) (1 # 2)) as [Hx | Hx | Hx];
    destruct (Qcompare_spec (y - inject_Z (Qfloor y)) (1 # 2)) as [Hy | Hy | Hy];
    try destruct (Z.even (Qfloor y)); try lia; lra.
  - (* floor x < floor y: round x <= floor x + 1 <= floor y <= round y *)
    assert (Hlt : (Qfloor x < Qfloor y)%Z).
    { pose proof (Qfloor_resp_le _ _ Hxy). lia. }
    assert (Hx : (round_half_even x <= Qfloor x + 1)%Z).
    { unfold round_half_even.
      destruct (x - inject_Z (Qfloor x) ?= 1 # 2); try destruct (Z.even _); lia. }
    assert (Hy : (Qfloor y <= round_half_even y)%Z).
    { unfold round_half_even.
      destruct (y - inject_Z (Qfloor y) ?= 1 # 2); try destruct (Z.even _); lia. }
    lia.
Qed.

Lemma round_err (x : Q) (n : nat) :
  x - (1 # 2) / pow10 n <= round x n <= x + (1 # 2) / pow10 n.
Proof.
  unfold round.
  pose proof (pow10_pos n) as Hp.
  pose proof (round_half_even_err (x * pow10 n)) as [Hlo Hhi].
  set (r := inject_Z (round_half_even (x * pow10 n))) in *.
  assert (Hne : ~ pow10 n == 0) by lra.
  split.
  - apply Qle_shift_div_l; [exact Hp|].
    assert (E : (x - (1 # 2) / pow10 n) * pow10 n == x * pow10 n - (1 # 2))
      by (field; exact Hne).
    rewrite E. exact Hlo.
  - apply Qle_shift_div_r; [exact Hp|].
    assert (E : (x + (1 # 2) / pow10 n) * pow10 n == x * pow10 n + (1 # 2))
      by (field; exact Hne).
    rewrite E. exact Hhi.
Qed.

Lemma round_mono (x y : Q) (n : nat) : x <= y -> round x n <= round y n.
Proof.
  intros Hxy. unfold round.
  pose proof (pow10_pos n) as Hp.
  apply Qmult_le_compat_r.
  - rewrite <- Zle_Qle. apply round_half_even_mono.
    apply Qmult_le_compat_r; lra.
  - apply Qlt_le_weak, Qinv_lt_0_compat, Hp.
Qed.

(** A value that already is a multiple of [10^-n] is left as it is. *)
Lemma round_fixed (k : Z) (n : nat) :
  round (inject_Z k / pow10 n) n == inject_Z k / pow10 n.
Proof.
  unfold round.
  pose proof (pow10_pos n) as Hp.
  assert (H : inject_Z k / pow10 n * pow10 n == inject_Z k) by (field; lra).
  rewrite H, round_half_even_Z. reflexivity.
Qed.

End Rounding.

(* ===================================================================== *)
(** ** Facts on exceptions and dictionaries                                *)
(* ===================================================================== *)

Section Running.

Context {B : Type}.

Lemma rbind_Ok {A : Type} (a : A) (k : A -> result B) : rbind (Ok a) k = k a.
Proof. reflexivity. Qed.

Lemma pydiv_ok (x y : Q) : ~ y == 0 -> pydiv x y = Ok (x / y).
Proof.
  intros Hy. unfold pydiv.
  destruct (Qeq_bool y 0) eqn:E; [|reflexivity].
  apply Qeq_bool_eq in E. contradiction.
Qed.

Lemma rbind_pydiv (x y : Q) (k : Q -> result B) :
  ~ y == 0 -> rbind (pydiv x y) k = k (x / y).
Proof. intros Hy. rewrite pydiv_ok by exact Hy. reflexivity. Qed.

Lemma rbind_getitem (d : gmap string Q) (key : string) (v : Q)
    (k : Q -> result B) :
  d !! key = Some v -> rbind (getitem d key) k = k v.
Proof. intros H. unfold getitem. rewrite H. reflexivity. Qed.

Lemma rbind_getitem_missing (d : gmap string Q) (key : string)
    (k : Q -> result B) :
  d !! key = None -> rbind (getitem d key) k = Err (KeyError key).
Proof. intros H. unfold getitem. rewrite H. reflexivity. Qed.

End Running.

Lemma Qgt0b_true (x : Q) : Qgt0b x = true <-> 0 < x.
Proof.
  unfold Qgt0b. rewrite negb_true_iff.
  destruct (Qle_bool x 0) eqn:E.
  - apply Qle_bool_iff in E. split; [discriminate | lra].
  - split; [intros _ | reflexivity].
    apply Qnot_le_lt. intros H. apply Qle_bool_iff in H. congruence.
Qed.

Lemma truthy_true (x : Q) : truthy x = true <-> ~ x == 0.
Proof.
  unfold truthy. rewrite negb_true_iff.
  destruct (Qeq_bool x 0) eqn:E.
  - apply Qeq_bool_eq in E. split; [discriminate | contradiction].
  - split; [intros _ | reflexivity].
    intros H. apply Qeq_eq_bool in H. congruence.
Qed.

Lemma truthy_false (x : Q) : truthy x = false <-> x == 0.
Proof.
  destruct (truthy x) eqn:E.
  - apply truthy_true in E. split; [discriminate | contradiction].
  - split; [intros _ | reflexivity].
    destruct (Qeq_dec x 0) as [H | H]; [exact H|].
    apply truthy_true in H. congruence.
Qed.

(** A guarded division never raises. *)
Lemma guarded_div (a b : Q) :
  exists q : Q,
    (if Qgt0b b then pydiv a b else Ok 0) = Ok q
    /\ (b <= 0 -> q = 0) /\ (0 < b -> q = a / b).
Proof.
  destruct (Qgt0b b) eqn:E.
  - apply Qgt0b_true in E. exists (a / b). split; [|split].
    + apply pydiv_ok. lra.
    + intros H. lra.
    + reflexivity.
  - exists 0. split; [reflexivity|]. split; [reflexivity|].
    intros H. apply Qgt0b_true in H. congruence.
Qed.

(* ===================================================================== *)
(** ** Facts on [calculate_cost]                                           *)
(* ===================================================================== *)

Lemma plan_rates_is_Some (p : string) (r : gmap string Q) (k : string) :
  is_Some (plan_rates p r !! k) <-> is_Some (r !! k).
Proof.
  unfold plan_rates.
  destruct (String.eqb p "economy"); [|destruct (String.eqb p "premium")];
    rewrite ?lookup_fmap, ?fmap_is_Some; reflexivity.
Qed.

Lemma plan_rates_None (p : string) (r : gmap string Q) (k : string) :
  plan_rates p r !! k = None <-> r !! k = None.
Proof.
  rewrite !eq_None_not_Some, plan_rates_is_Some. reflexivity.
Qed.

Lemma plan_rates_complete (p : string) (r : gmap string Q) :
  rates_complete r -> rates_complete (plan_rates p r).
Proof.
  unfold rates_complete. rewrite !Forall_forall.
  intros H k Hk. apply plan_rates_is_Some, H, Hk.
Qed.

Lemma default_rates_complete : rates_complete default_rates.
Proof.
  unfold rates_complete, required_rate_keys.
  repeat constructor; vm_compute; eexists; reflexivity.
Qed.

(** With a complete table [calculate_cost] returns, and its result is made of
    the 8 unrounded category costs in the way stated here. *)
Lemma calculate_cost_ok (m : snapshot) (p : string)
    (cr : option (gmap string Q)) :
  rates_complete (base_rates cr) ->
  exists (res : CostResult) (cement sand aggregate steel bricks tiles paint plaster : Q),
    let total :=
      0 + cement + sand + aggregate + steel + bricks + tiles + paint + plaster in
    calculate_cost m p cr = Ok res
    /\ itemized_costs res =
         {[ "cement" := round cement 2; "sand" := round sand 2;
            "aggregate" := round aggregate 2; "steel" := round steel 2;
            "bricks" := round bricks 2; "tiles" := round tiles 2;
            "paint" := round paint 2; "plaster" := round plaster 2 ]}
    /\ material_costs res = itemized_costs res
    /\ applied_rates res = plan_rates p (base_rates cr)
    /\ total_material_cost res = round total 2
    /\ cost_per_sqft res =
         (if truthy (flooring_area_sqft m)
          then Some (round (total / flooring_area_sqft m) 2) else None).
Proof.
  intros Hc. apply (plan_rates_complete p) in Hc.
  unfold rates_complete, required_rate_keys in Hc.
  repeat match type of Hc with
         | Forall _ (_ :: _) => apply Forall_cons in Hc as [[? ?] Hc]
         end.
  unfold calculate_cost. cbv zeta.
  repeat (erewrite rbind_getitem by eassumption).
  fold (flooring_area_sqft m).
  destruct (truthy (flooring_area_sqft m)) eqn:Ht.
  - apply truthy_true in Ht.
    rewrite rbind_pydiv by exact Ht. rewrite !rbind_Ok.
    do 9 eexists. cbn [itemized_costs material_costs applied_rates
                       total_material_cost cost_per_sqft].
    repeat split; reflexivity.
  - rewrite !rbind_Ok.
    do 9 eexists. cbn [itemized_costs material_costs applied_rates
                       total_material_cost cost_per_sqft].
    repeat split; reflexivity.
Qed.

(** One read [rates[k]]: either the key is there and the run goes on, or the
    run stops with [KeyError k]. *)
Ltac read_rate k :=
  let E := fresh "E" in
  match goal with
  | |- context [getitem ?d k] => destruct (d !! k) eqn:E
  end;
  [ erewrite (rbind_getitem _ k) by exact E
  | rewrite (rbind_getitem_missing _ k) by exact E;
    exists k; split; [unfold required_rate_keys; simpl; tauto|];
    split; [apply plan_rates_None in E; exact E | reflexivity] ].

(** With an incomplete table [calculate_cost] raises [KeyError] at the first
    missing key it reads. *)
Lemma calculate_cost_missing (m : snapshot) (p : string)
    (cr : option (gmap string Q)) :
  ~ rates_complete (base_rates cr) ->
  exists k : string,
    In k required_rate_keys
    /\ base_rates cr !! k = None
    /\ calculate_cost m p cr = Err (KeyError k).
Proof.
  intros Hn. unfold calculate_cost. cbv zeta.
  read_rate "cement_per_bag"%string.
  read_rate "sand_per_m3"%string.
  read_rate "aggregate_per_m3"%string.
  read_rate "steel_per_kg"%string.
  read_rate "brick_per_100"%string.
  read_rate "tile_per_sqm"%string.
  read_rate "paint_per_liter"%string.
  read_rate "plaster_per_m3"%string.
  exfalso. apply Hn.
  unfold rates_complete, required_rate_keys.
  repeat constructor; apply (plan_rates_is_Some p); eexists; eassumption.
Qed.

Lemma rates_complete_dec (r : gmap string Q) :
  {rates_complete r} + {~ rates_complete r}.
Proof.
  unfold rates_complete. apply Forall_dec. intros k.
  destruct (r !! k); [left; eexists; reflexivity | right; intros [? ?]; discriminate].
Qed.

(** A result of [calculate_cost] comes from a complete table. *)
Lemma calculate_cost_Ok_complete (m : snapshot) (p : string)
    (cr : option (gmap string Q)) (res : CostResult) :
  calculate_cost m p cr = Ok res -> rates_complete (base_rates cr).
Proof.
  intros H. destruct (rates_complete_dec (base_rates cr)) as [Hc | Hn]; [exact Hc|].
  destruct (calculate_cost_missing m p cr Hn) as (k & _ & _ & E). congruence.
Qed.

Lemma plan_rates_other (p : string) (r : gmap string Q) :
  p <> "economy"%string -> p <> "premium"%string -> plan_rates p r = r.
Proof.
  intros He Hp. unfold plan_rates.
  apply String.eqb_neq in He, Hp. rewrite He, Hp. reflexivity.
Qed.

Lemma round2_err (x : Q) : x - (1 # 200) <= round x 2 <= x + (1 # 200).
Proof. exact (round_err x 2). Qed.

Lemma round1_err (x : Q) : x - (1 # 20) <= round x 1 <= x + (1 # 20).
Proof. exact (round_err x 1). Qed.

(** Lookups in a dictionary written out key by key. *)
Ltac map_lookups :=
  repeat first
    [ rewrite lookup_insert_eq
    | rewrite lookup_insert_ne by discriminate
    | rewrite lookup_singleton_eq
    | rewrite lookup_singleton_ne by discriminate
    | rewrite lookup_empty ].

(** C2 (as the code has it).  With a complete rate table, [calculate_cost]
    returns; each of the 8 reported category costs is that category's cost
    rounded to 2 decimals, and [total_material_cost] is the sum of the 8
    unrounded costs, rounded to 2 decimals.  It is the sum of the 8 reported
    costs only up to 0.045. *)
Theorem total_material_cost_rounds_sum (m : snapshot) (p : string)
    (cr : option (gmap string Q)) :
  rates_complete (base_rates cr) ->
  exists (res : CostResult) (cs : list Q),
    calculate_cost m p cr = Ok res
    /\ lookups (itemized_costs res) cost_categories
       = Some (map (fun c => round c 2) cs)
    /\ total_material_cost res = round (fold_left Qplus cs 0) 2
    /\ exists s : Q,
         reported_sum res = Some s
         /\ Qabs (total_material_cost res - s) <= 45 # 1000.
Proof.
  intros Hc.
  destruct (calculate_cost_ok m p cr Hc)
    as (res & c1 & c2 & c3 & c4 & c5 & c6 & c7 & c8 & E & Hi & _ & _ & Ht & _).
  exists res, [c1; c2; c3; c4; c5; c6; c7; c8].
  split; [exact E|].
  assert (Hl : lookups (itemized_costs res) cost_categories
               = Some (map (fun c => round c 2) [c1; c2; c3; c4; c5; c6; c7; c8])).
  { rewrite Hi. unfold cost_categories. cbn [lookups map].
    map_lookups. reflexivity. }
  split; [exact Hl|]. split; [exact Ht|].
  unfold reported_sum. rewrite Hl. eexists. split; [reflexivity|].
  rewrite Ht. cbn [map Qsum].
  pose proof (round2_err c1). pose proof (round2_err c2).
  pose proof (round2_err c3). pose proof (round2_err c4).
  pose proof (round2_err c5). pose proof (round2_err c6).
  pose proof (round2_err c7). pose proof (round2_err c8).
  pose proof (round2_err (0 + c1 + c2 + c3 + c4 + c5 + c6 + c7 + c8)).
  apply Qabs_Qle_condition. split; lra.
Qed.

Lemma total_material_cost_rounds_sum_witness :
  rates_complete (base_rates None)
  /\ exists (res : CostResult) (cs : list Q),
       calculate_cost one_bag_one_kg "premium" None = Ok res
       /\ lookups (itemized_costs res) cost_categories
          = Some (map (fun c => round c 2) cs)
       /\ total_material_cost res = round (fold_left Qplus cs 0) 2
       /\ exists s : Q,
            reported_sum res = Some s
            /\ Qabs (total_material_cost res - s) <= 45 # 1000.
Proof.
  split.
  - exact default_rates_complete.
  - apply (total_material_cost_rounds_sum one_bag_one_kg "premium" None).
    exact default_rates_complete.
Defined.

(** C2 (as stated) fails: one bag at 0.004 and one kilogram at 0.004 are
    reported as 0.00 each, and the total 0.008 is reported as 0.01. *)
Lemma total_material_cost_not_reported_sum :
  exists (res : CostResult) (s : Q),
    calculate_cost one_bag_one_kg "standard" (Some sub_cent_rates) = Ok res
    /\ reported_sum res = Some s
    /\ s == 0
    /\ total_material_cost res == 1 # 100
    /\ ~ total_is_reported_sum res.
Proof.
  assert (H : match calculate_cost one_bag_one_kg "standard" (Some sub_cent_rates) with
              | Ok res =>
                  match reported_sum res with
                  | Some s => Qeq_bool s 0 && Qeq_bool (total_material_cost res) (1 # 100)
                  | None => false
                  end
              | Err _ => false
              end = true) by (vm_compute; reflexivity).
  destruct (calculate_cost _ _ _) as [res|]; [|discriminate].
  destruct (reported_sum res) as [s|] eqn:Hs; [|discriminate].
  apply andb_prop in H as [H0 H1].
  apply Qeq_bool_eq in H0, H1.
  exists res, s. repeat (split; [first [reflexivity | assumption]|]).
  intros (s' & Hs' & Ht). rewrite Hs in Hs'. injection Hs' as <-.
  rewrite H0, H1 in Ht. discriminate.
Qed.

(** C4 (as the code has it).  A supplied rate table that is not empty and
    omits one of the 8 keys makes [calculate_cost] raise [KeyError] for a key
    the table omits: no default is put in its place. *)
Theorem incomplete_rates_raise_KeyError (m : snapshot) (p : string)
    (r : gmap string Q) :
  size r <> 0%nat ->
  ~ rates_complete r ->
  exists k : string,
    In k required_rate_keys
    /\ r !! k = None
    /\ calculate_cost m p (Some r) = Err (KeyError k).
Proof.
  intros Hsize Hn.
  assert (Hb : base_rates (Some r) = r).
  { unfold base_rates. destruct (Nat.eqb_spec (size r) 0); [contradiction | reflexivity]. }
  destruct (calculate_cost_missing m p (Some r)) as (k & Hin & Hk & E).
  - rewrite Hb. exact Hn.
  - rewrite Hb in Hk. exists k. auto.
Qed.

Lemma incomplete_rates_raise_KeyError_witness :
  size cement_only_rates <> 0%nat
  /\ ~ rates_complete cement_only_rates
  /\ exists k : string,
       In k required_rate_keys
       /\ cement_only_rates !! k = None
       /\ calculate_cost floor_only "economy" (Some cement_only_rates)
          = Err (KeyError k).
Proof.
  assert (Hsize : size cement_only_rates <> 0%nat) by (vm_compute; discriminate).
  assert (Hn : ~ rates_complete cement_only_rates).
  { unfold rates_complete, required_rate_keys. intros H.
    apply Forall_cons in H as [_ H]. apply Forall_cons in H as [[v Hv] _].
    vm_compute in Hv. discriminate. }
  split; [exact Hsize|]. split; [exact Hn|].
  exact (incomplete_rates_raise_KeyError floor_only "economy" cement_only_rates
           Hsize Hn).
Defined.

(** C4 (as stated) fails: the empty table is a supplied table that omits
    all 8 keys, and [calculate_cost] prices with the default table. *)
Lemma empty_rates_fall_back_to_defaults :
  ~ rates_complete (∅ : gmap string Q)
  /\ exists res : CostResult,
       calculate_cost floor_only "standard" (Some ∅) = Ok res
       /\ applied_rates res = default_rates.
Proof.
  split.
  - unfold rates_complete, required_rate_keys. intros H.
    apply Forall_cons in H as [[v Hv] _]. rewrite lookup_empty in Hv. discriminate.
  - destruct (calculate_cost_ok floor_only "standard" (Some ∅))
      as (res & c1 & c2 & c3 & c4 & c5 & c6 & c7 & c8 & E & _ & _ & Hr & _).
    + exact default_rates_complete.
    + exists res. split; [exact E|]. rewrite Hr. reflexivity.
Qed.

(** C5.  [calculate_cost] never raises [ZeroDivisionError]; with a complete
    rate table it returns, [cost_per_sqft] is [None] exactly when
    [flooring_area_sqft] is 0 (or absent, which reads as 0), and otherwise it
    is [T / flooring_area_sqft] rounded to 2 decimals, where [T] is the
    unrounded total whose rounding is [total_material_cost]. *)
Theorem cost_per_sqft_guarded (m : snapshot) (p : string)
    (cr : option (gmap string Q)) :
  calculate_cost m p cr <> Err ZeroDivisionError
  /\ (rates_complete (base_rates cr) ->
      exists (res : CostResult) (T : Q),
        calculate_cost m p cr = Ok res
        /\ total_material_cost res = round T 2
        /\ (cost_per_sqft res = None <-> flooring_area_sqft m == 0)
        /\ (~ flooring_area_sqft m == 0 ->
            cost_per_sqft res = Some (round (T / flooring_area_sqft m) 2))).
Proof.
  split.
  - destruct (rates_complete_dec (base_rates cr)) as [Hc | Hn].
    + destruct (calculate_cost_ok m p cr Hc)
        as (res & c1 & c2 & c3 & c4 & c5 & c6 & c7 & c8 & E & _).
      rewrite E. discriminate.
    + destruct (calculate_cost_missing m p cr Hn) as (k & _ & _ & E).
      rewrite E. discriminate.
  - intros Hc.
    destruct (calculate_cost_ok m p cr Hc)
      as (res & c1 & c2 & c3 & c4 & c5 & c6 & c7 & c8 & E & _ & _ & _ & Ht & Hs).
    exists res, (0 + c1 + c2 + c3 + c4 + c5 + c6 + c7 + c8).
    split; [exact E|]. split; [exact Ht|].
    destruct (truthy (flooring_area_sqft m)) eqn:Hz.
    + apply truthy_true in Hz. split.
      * rewrite Hs. split; [discriminate | contradiction].
      * intros _. exact Hs.
    + apply truthy_false in Hz. split.
      * rewrite Hs. split; [intros _; exact Hz | reflexivity].
      * intros Hne. contradiction.
Qed.

Lemma cost_per_sqft_guarded_witness :
  rates_complete (base_rates None)
  /\ ~ flooring_area_sqft floor_only == 0
  /\ exists (res : CostResult) (T : Q),
       calculate_cost floor_only "standard" None = Ok res
       /\ total_material_cost res = round T 2
       /\ cost_per_sqft res = Some (round (T / flooring_area_sqft floor_only) 2).
Proof.
  assert (Hc : rates_complete (base_rates None)) by exact default_rates_complete.
  assert (Ha : ~ flooring_area_sqft floor_only == 0)
    by (apply truthy_true; vm_compute; reflexivity).
  split; [exact Hc|]. split; [exact Ha|].
  destruct (cost_per_sqft_guarded floor_only "standard" None) as [_ H].
  destruct (H Hc) as (res & T & E & Ht & _ & Hs).
  exists res, T. split; [exact E|]. split; [exact Ht|]. exact (Hs Ha).
Defined.

(** C6.  [generate_boq] returns the 13 rows in the fixed order; the 5
    concrete rows have no rate and no amount, and each of the other 8 rows has
    the rate of its key in [applied_rates] and the amount of its category in
    [itemized_costs] (absent when the result has none). *)
Theorem generate_boq_rows (m : snapshot) (cost : CostResult) :
  let boq := generate_boq m cost in
  length boq = 13%nat
  /\ map item boq =
       [ "PCC (Plain Cement Concrete)"; "RCC Footing Concrete";
         "RCC Column Concrete"; "RCC Beam Concrete"; "RCC Slab Concrete";
         "Cement"; "Sand"; "Aggregate"; "Steel Reinforcement"; "Bricks";
         "Floor Tiles"; "Paint"; "Plaster" ]%string
  /\ Forall (fun row => rate row = None /\ amount row = None) (firstn 5 boq)
  /\ map rate (skipn 5 boq) = map (fun k => applied_rates cost !! k) required_rate_keys
  /\ map amount (skipn 5 boq) = map (fun k => itemized_costs cost !! k) cost_categories.
Proof.
  cbv zeta. unfold generate_boq. cbn [length map firstn skipn item rate amount].
  split; [reflexivity|]. split; [reflexivity|].
  split; [repeat constructor|]. split; reflexivity.
Qed.

(** C9.  A plan other than 'economy' and 'premium', whatever the string, is
    the standard plan: [generate_plan_variants] returns its input, and
    [calculate_cost] does what it does for 'standard' and applies the rate
    table unscaled. *)
Theorem unknown_plan_is_standard (m : snapshot) (p : string)
    (cr : option (gmap string Q)) :
  p <> "economy"%string ->
  p <> "premium"%string ->
  generate_plan_variants m p = m
  /\ calculate_cost m p cr = calculate_cost m "standard" cr
  /\ (forall res, calculate_cost m p cr = Ok res ->
                  applied_rates res = base_rates cr)
  /\ (rates_complete (base_rates cr) ->
      exists res, calculate_cost m p cr = Ok res
                  /\ applied_rates res = base_rates cr).
Proof.
  intros He Hp.
  assert (Hr : forall r, plan_rates p r = r) by (intros r; apply plan_rates_other; auto).
  assert (Hok : rates_complete (base_rates cr) ->
                exists res, calculate_cost m p cr = Ok res
                            /\ applied_rates res = base_rates cr).
  { intros Hc.
    destruct (calculate_cost_ok m p cr Hc)
      as (res & c1 & c2 & c3 & c4 & c5 & c6 & c7 & c8 & E & _ & _ & Ha & _).
    exists res. split; [exact E|]. rewrite Ha. apply Hr. }
  split; [|split; [|split]].
  - unfold generate_plan_variants, adjustment_factor.
    apply String.eqb_neq in He, Hp. rewrite He, Hp. reflexivity.
  - unfold calculate_cost. rewrite Hr. reflexivity.
  - intros res E.
    destruct (Hok (calculate_cost_Ok_complete m p cr res E)) as (res' & E' & Ha).
    congruence.
  - exact Hok.
Qed.

Lemma unknown_plan_is_standard_witness :
  "delux"%string <> "economy"%string
  /\ "delux"%string <> "premium"%string
  /\ generate_plan_variants one_bag_one_kg "delux" = one_bag_one_kg
  /\ calculate_cost one_bag_one_kg "delux" None
     = calculate_cost one_bag_one_kg "standard" None
  /\ exists res, calculate_cost one_bag_one_kg "delux" None = Ok res
                 /\ applied_rates res = default_rates.
Proof.
  assert (He : "delux"%string <> "economy"%string) by discriminate.
  assert (Hp : "delux"%string <> "premium"%string) by discriminate.
  split; [exact He|]. split; [exact Hp|].
  destruct (unknown_plan_is_standard one_bag_one_kg "delux" None He Hp)
    as (Hv & Hc & _ & Hok).
  split; [exact Hv|]. split; [exact Hc|].
  exact (Hok default_rates_complete).
Defined.

(* ===================================================================== *)
(** ** Facts on [generate_plan_variants]                                   *)
(* ===================================================================== *)

Lemma adjustment_factor_cases (p : string) :
  adjustment_factor p = 108 # 100
  \/ adjustment_factor p = 95 # 100
  \/ adjustment_factor p = 1.
Proof.
  unfold adjustment_factor.
  destruct (String.eqb p "economy"); [|destruct (String.eqb p "premium")]; auto.
Qed.

(** The section looked up is the one altered by exactly one of the nested
    [alter]s. *)
Ltac this_section :=
  repeat (rewrite lookup_alter_ne by discriminate);
  rewrite lookup_alter_eq;
  repeat (rewrite lookup_alter_ne by discriminate).

Ltac scaled_section m :=
  this_section;
  match goal with
  | |- context [m !! ?s] => destruct (m !! s)
  end; cbn; [apply lookup_fmap | reflexivity].

(** What [generate_plan_variants] leaves in each field: the fields of
    [adjusted_digits] are scaled and rounded, the others are as they were. *)
Lemma variant_field (m : snapshot) (p : string) (sec key : string) :
  field (generate_plan_variants m p) sec key =
    match adjusted_digits sec key with
    | Some n =>
        if Qeq_bool (adjustment_factor p) 1 then field m sec key
        else (fun v => round (v * adjustment_factor p) n) <$> field m sec key
    | None => field m sec key
    end.
Proof.
  unfold generate_plan_variants. cbv zeta.
  destruct (Qeq_bool (adjustment_factor p) 1) eqn:Hf; cbn [negb].
  - destruct (adjusted_digits sec key); reflexivity.
  - cbn [fold_left]. unfold field, adjusted_digits, scale_section, scale_key.
    destruct (String.eqb_spec sec "concrete") as [-> | H1];
      [scaled_section m|].
    destruct (String.eqb_spec sec "cement") as [-> | H2];
      [scaled_section m|].
    destruct (String.eqb_spec sec "sand") as [-> | H3];
      [scaled_section m|].
    destruct (String.eqb_spec sec "aggregate") as [-> | H4];
      [scaled_section m|].
    destruct (String.eqb_spec sec "steel") as [-> | H5];
      [scaled_section m|].
    cbn [orb andb].
    destruct (String.eqb_spec sec "masonry") as [-> | H6].
    { this_section.
      destruct (m !! "masonry"%string) as [d|]; cbn;
        [|destruct (_ =? _)%string; reflexivity].
      destruct (String.eqb_spec key "brick_quantity") as [-> | Hk].
      - apply lookup_alter_eq.
      - apply lookup_alter_ne. congruence. }
    destruct (String.eqb_spec sec "finishing") as [-> | H7].
    { this_section.
      destruct (m !! "finishing"%string) as [d|]; cbn;
        [|destruct (_ =? _)%string; reflexivity].
      destruct (String.eqb_spec key "floor_tiles_qty") as [-> | Hk].
      - apply lookup_alter_eq.
      - apply lookup_alter_ne. congruence. }
    cbn [andb].
    rewrite !lookup_alter_ne by congruence. reflexivity.
Qed.

(** *** Totals under scaling *)

Lemma total_within_weaken (m : snapshot) (sec total : string)
    (parts : list string) (tol tol' : Q) :
  tol <= tol' -> total_within m sec total parts tol ->
  total_within m sec total parts tol'.
Proof.
  intros Hle (t & vs & Ht & Hvs & Hb).
  exists t, vs. split; [exact Ht|]. split; [exact Hvs|].
  eapply Qle_trans; eassumption.
Qed.

Lemma Qsum_round_scaled (f : Q) (n : nat) (vs : list Q) :
  f * Qsum vs - half_units n Q vs
  <= Qsum (map (fun v => round (v * f) n) vs)
  <= f * Qsum vs + half_units n Q vs.
Proof.
  unfold half_units.
  induction vs as [|v vs IH]; cbn [map Qsum].
  - lra.
  - pose proof (round_err (v * f) n). lra.
Qed.

Lemma half_units_length (n : nat) (A B : Type) (l : list A) (l' : list B) :
  length l = length l' -> half_units n A l = half_units n B l'.
Proof.
  unfold half_units. revert l'.
  induction l as [|a l IH]; intros [|b l'] Hlen; try discriminate; cbn [map Qsum].
  - reflexivity.
  - f_equal. apply IH. now injection Hlen.
Qed.

(** A total that is within [tol] of its parts is, after the scaling of the
    whole section to [n] decimals, within [1.08 * tol] plus half a unit for
    the total and for each part. *)
Lemma total_within_variant (m : snapshot) (p : string) (sec total : string)
    (parts : list string) (tol : Q) (n : nat) :
  (forall key, adjusted_digits sec key = Some n) ->
  total_within m sec total parts tol ->
  total_within (generate_plan_variants m p) sec total parts
    ((108 # 100) * tol + (1 # 2) / pow10 n + half_units n string parts).
Proof.
  intros Hn (t & vs & Ht & Hvs & Hb).
  assert (Hlen : length parts = length vs) by (eapply Forall2_length; eassumption).
  assert (Hh : half_units n string parts = half_units n Q vs)
    by (apply half_units_length, Hlen).
  assert (Hh0 : 0 <= half_units n Q vs).
  { unfold half_units. clear. pose proof (pow10_pos n) as Hp.
    assert (Hu : 0 <= (1 # 2) / pow10 n).
    { apply Qle_shift_div_l; [exact Hp | lra]. }
    induction vs; cbn [map Qsum]; lra. }
  pose proof (pow10_pos n) as Hp.
  assert (Hu : 0 <= (1 # 2) / pow10 n).
  { apply Qle_shift_div_l; [exact Hp | lra]. }
  assert (Htol : 0 <= tol) by (eapply Qle_trans; [apply Qabs_nonneg | exact Hb]).
  apply Qabs_Qle_condition in Hb. destruct Hb as [Hlo Hhi].
  destruct (Qeq_bool (adjustment_factor p) 1) eqn:Hf.
  - (* no scaling *)
    exists t, vs. split; [|split].
    + rewrite variant_field, Hn, Hf. exact Ht.
    + eapply Forall2_impl; [exact Hvs|].
      intros k v Hk. cbn beta in *. rewrite variant_field, Hn, Hf. exact Hk.
    + rewrite Hh. apply Qabs_Qle_condition. split; lra.
  - (* scaling by 1.08 or by 0.95 *)
    assert (Hfield : forall key,
               field (generate_plan_variants m p) sec key
               = (fun v => round (v * adjustment_factor p) n) <$> field m sec key).
    { intros key. rewrite variant_field, Hn, Hf. reflexivity. }
    assert (Hf01 : 0 <= adjustment_factor p /\ adjustment_factor p <= 108 # 100).
    { destruct (adjustment_factor_cases p) as [-> | [-> | ->]]; lra. }
    destruct Hf01 as [Hf0 Hf1].
    clear Hf. revert Hfield Hf0 Hf1.
    generalize (adjustment_factor p). intros f Hfield Hf0 Hf1.
    exists (round (t * f) n), (map (fun v => round (v * f) n) vs).
    split; [|split].
    + rewrite Hfield, Ht. reflexivity.
    + clear - Hvs Hfield. induction Hvs as [|k v ks vs' Hk _ IH]; cbn [map].
      * constructor.
      * constructor; [|exact IH].
        rewrite Hfield, Hk. reflexivity.
    + rewrite Hh.
      pose proof (round_err (t * f) n) as [Ht1 Ht2].
      pose proof (Qsum_round_scaled f n vs) as [Hs1 Hs2].
      assert (Hd1 : f * (t - Qsum vs) <= (108 # 100) * tol).
      { apply Qle_trans with (f * tol).
        - rewrite !(Qmult_comm f). apply Qmult_le_compat_r; lra.
        - apply Qmult_le_compat_r; lra. }
      assert (Hd2 : f * (Qsum vs - t) <= (108 # 100) * tol).
      { apply Qle_trans with (f * tol).
        - rewrite !(Qmult_comm f). apply Qmult_le_compat_r; lra.
        - apply Qmult_le_compat_r; lra. }
      apply Qabs_Qle_condition. split; lra.
Qed.

(* ===================================================================== *)
(** ** Facts on [calculate_materials]                                      *)
(* ===================================================================== *)

Lemma mix_ratios_pos (g : string) :
  match default (1, 3 # 2, 3) (mix_ratios !! g) with
  | (c, s, a) => 0 < c + s + a
  end.
Proof.
  unfold mix_ratios. rewrite !lookup_insert, lookup_singleton.
  repeat case_decide; reflexivity.
Qed.

Lemma mortar_ratio_pos (g : string) :
  0 < fst (default (1, 6) (mortar_ratio !! g))
      + snd (default (1, 6) (mortar_ratio !! g)).
Proof.
  unfold mortar_ratio. rewrite !lookup_insert, lookup_singleton.
  repeat case_decide; reflexivity.
Qed.

(** Runs [calculate_materials] on [inputs]: every division has a divisor
    that is not zero, or is guarded.  What is left is the returned
    dictionary; [bricks] and [tiles] name the results of the two guarded
    divisions. *)
Ltac run_materials inputs bricks tiles :=
  unfold calculate_materials; cbv zeta;
  rewrite rbind_pydiv by (unfold cement_bag_kg; lra);
  cbv beta;
  let Hmix := fresh "Hmix" in
  let Hmort := fresh "Hmort" in
  pose proof (mix_ratios_pos (lower (default "m20"%string (concrete_grade inputs))))
    as Hmix;
  pose proof (mortar_ratio_pos (default "1:6"%string (mortar_mix inputs))) as Hmort;
  destruct (default (1, 3 # 2, 3) (mix_ratios !! _)) as [[? ?] ?];
  repeat (rewrite rbind_pydiv by (unfold cement_bag_kg; lra); cbv beta);
  let E := fresh "E" in
  let Hb0 := fresh "Hbricks_zero" in
  let Hb1 := fresh "Hbricks_div" in
  match goal with
  | |- context [rbind (if Qgt0b ?b then pydiv ?a ?b else Ok 0) _] =>
      destruct (guarded_div a b) as (bricks & E & Hb0 & Hb1);
      rewrite E, rbind_Ok; clear E
  end;
  let Ht0 := fresh "Htiles_zero" in
  let Ht1 := fresh "Htiles_div" in
  match goal with
  | |- context [rbind (if Qgt0b ?b then pydiv ?a ?b else Ok 0) _] =>
      destruct (guarded_div a b) as (tiles & E & Ht0 & Ht1);
      rewrite E, rbind_Ok; clear E
  end;
  rewrite rbind_pydiv by (unfold paint_coverage_m2_per_litre; lra);
  cbv beta.


Lemma field_Some (m : snapshot) (sec key : string) (d : gmap string Q) :
  m !! sec = Some d -> field m sec key = d !! key.
Proof. intros H. unfold field. rewrite H. reflexivity. Qed.

(** The fields of a snapshot written out section by section. *)
Ltac read_fields :=
  repeat (erewrite field_Some by (map_lookups; reflexivity); map_lookups).

Lemma round0_Z (k : Z) : round (inject_Z k) 0 == inject_Z k.
Proof.
  pose proof (round_fixed k 0) as H.
  assert (E : inject_Z k / pow10 0 == inject_Z k)
    by (change (pow10 0) with 1; field).
  rewrite E in H. exact H.
Qed.

(** Whole numbers of bags add up to a whole number of bags. *)
Lemma round0_bags (a b c : Z) :
  round (round (inject_Z a) 0 + round (inject_Z b) 0 + round (inject_Z c) 0) 0
  == round (inject_Z a) 0 + round (inject_Z b) 0 + round (inject_Z c) 0.
Proof.
  rewrite !round0_Z, <- !inject_Z_plus. apply round0_Z.
Qed.

(** The totals of the snapshot [calculate_materials] returns: half a unit of
    the last decimal for the total and for each part; bags are whole, so
    their total is exact. *)
Lemma materials_totals (inputs : InputSet) :
  exists m : snapshot,
    calculate_materials inputs = Ok m
    /\ totals_within m (25 # 1000) 0 (25 # 100) (2 # 10).
Proof.
  run_materials inputs bricks tiles.
  eexists. split; [reflexivity|].
  unfold totals_within, total_within.
  split; [|split; [|split]].
  - eexists. eexists (_ :: _ :: _ :: _ :: nil).
    split; [read_fields; reflexivity|].
    split; [repeat constructor; read_fields; reflexivity|].
    cbn [Qsum].
    match goal with
    | |- Qabs (round (?a + ?b + ?c + ?d) 2 - _) <= _ =>
        pose proof (round2_err a); pose proof (round2_err b);
        pose proof (round2_err c); pose proof (round2_err d);
        pose proof (round2_err (a + b + c + d))
    end.
    apply Qabs_Qle_condition. split; lra.
  - eexists. eexists (_ :: _ :: _ :: nil).
    split; [read_fields; reflexivity|].
    split; [repeat constructor; read_fields; reflexivity|].
    cbn [Qsum].
    match goal with
    | |- Qabs (round (round (inject_Z ?a) 0 + round (inject_Z ?b) 0
                      + round (inject_Z ?c) 0) 0 - _) <= _ =>
        pose proof (round0_bags a b c)
    end.
    apply Qabs_Qle_condition. split; lra.
  - eexists. eexists (_ :: _ :: _ :: _ :: nil).
    split; [read_fields; reflexivity|].
    split; [repeat constructor; read_fields; reflexivity|].
    cbn [Qsum].
    match goal with
    | |- Qabs (round (?a + ?b + ?c + ?d) 1 - _) <= _ =>
        pose proof (round1_err a); pose proof (round1_err b);
        pose proof (round1_err c); pose proof (round1_err d);
        pose proof (round1_err (a + b + c + d))
    end.
    apply Qabs_Qle_condition. split; lra.
  - eexists. eexists (_ :: _ :: _ :: nil).
    split; [read_fields; reflexivity|].
    split; [repeat constructor; read_fields; reflexivity|].
    cbn [Qsum].
    match goal with
    | |- Qabs (round (?a + ?b + ?c) 1 - _) <= _ =>
        pose proof (round1_err a); pose proof (round1_err b);
        pose proof (round1_err c);
        pose proof (round1_err (a + b + c))
    end.
    apply Qabs_Qle_condition. split; lra.
Qed.

(** Comparison of two numbers given in full. *)
Ltac Qle_closed := apply Qle_bool_iff; vm_compute; reflexivity.

(** The total of hypothesis [H], after the scaling to [n] decimals. *)
Ltac scaled_total plan H n :=
  lazymatch type of H with
  | total_within ?m ?s ?t ?ps ?tol =>
      eapply total_within_weaken;
      [| exact (total_within_variant m plan s t ps tol n (fun _ => eq_refl) H)];
      Qle_closed
  end.

(** C1.  For every input and every plan, [calculate_materials] returns a
    snapshot whose declared totals are the sums of their declared parts up
    to rounding: within 0.025 m3 for [total_rcc], exactly for [total_bags],
    within 0.25 kg for [total_steel_kg] and 0.2 kg for [total_sand_kg] (half a
    unit of the last decimal for the total and for each part); and the
    snapshot [generate_plan_variants] makes of it has them within 0.06 m3,
    2 bags, 0.6 kg and 0.5 kg (the same again for the second rounding, after
    the error before it is scaled). *)
Theorem declared_totals_are_sums (inputs : InputSet) (plan : string) :
  exists m : snapshot,
    calculate_materials inputs = Ok m
    /\ totals_within m (25 # 1000) 0 (25 # 100) (2 # 10)
    /\ totals_within (generate_plan_variants m plan)
         (6 # 100) 2 (6 # 10) (5 # 10).
Proof.
  destruct (materials_totals inputs) as (m & E & Hrcc & Hbags & Hsteel & Hsand).
  exists m. split; [exact E|].
  split; [repeat split; assumption|].
  unfold totals_within. split; [|split; [|split]].
  - scaled_total plan Hrcc 2%nat.
  - scaled_total plan Hbags 0%nat.
  - scaled_total plan Hsteel 1%nat.
  - scaled_total plan Hsand 1%nat.
Qed.

(** C10.  When the brick dimensions give a volume that is not positive,
    [calculate_materials] does not divide by it: it returns, and
    [brick_quantity] is 0. *)
Theorem nonpositive_brick_volume_gives_no_bricks (inputs : InputSet) :
  brick_volume inputs <= 0 ->
  exists (m : snapshot) (v : Q),
    calculate_materials inputs = Ok m
    /\ field m "masonry" "brick_quantity" = Some v
    /\ v == 0.
Proof.
  intros Hvol. unfold brick_volume in Hvol.
  run_materials inputs bricks tiles.
  rewrite (Hbricks_zero Hvol).
  eexists. eexists. split; [reflexivity|].
  split; [read_fields; reflexivity|].
  rewrite Qmult_0_r. exact (round0_Z 0).
Qed.

Lemma nonpositive_brick_volume_gives_no_bricks_witness :
  brick_volume (scenario_with_bricks (Some 0)) <= 0
  /\ exists (m : snapshot) (v : Q),
       calculate_materials (scenario_with_bricks (Some 0)) = Ok m
       /\ field m "masonry" "brick_quantity" = Some v
       /\ v == 0.
Proof.
  assert (H : brick_volume (scenario_with_bricks (Some 0)) <= 0) by Qle_closed.
  split; [exact H|].
  exact (nonpositive_brick_volume_gives_no_bricks (scenario_with_bricks (Some 0)) H).
Defined.

(* ===================================================================== *)
(** ** The scenario, and the precision of the variants                     *)
(* ===================================================================== *)

Lemma field_is_true (m : snapshot) (sec key : string) (q : Q) :
  field_is m sec key q = true -> field_eq m sec key q.
Proof.
  unfold field_is, field_eq. destruct (field m sec key) as [v|]; [|discriminate].
  intros H. exists v. split; [reflexivity|]. apply Qeq_bool_eq, H.
Qed.

Ltac split_andb :=
  repeat match goal with
         | H : (_ && _)%bool = true |- _ => apply andb_prop in H as [? ?]
         end.

Lemma scenario_footing :
  exists m : snapshot,
    calculate_materials scenario = Ok m
    /\ field_eq m "concrete" "footing_rcc" (362 # 100).
Proof.
  assert (H : match calculate_materials scenario with
              | Ok m => field_is m "concrete" "footing_rcc" (362 # 100)
              | Err _ => false
              end = true) by (vm_compute; reflexivity).
  destruct (calculate_materials scenario) as [m|]; [|discriminate].
  exists m. split; [reflexivity | apply field_is_true, H].
Qed.

(** C3 (as the code has it).  On the scenario [calculate_materials] gives
    [footing_rcc] = 3.62 m3, which is 8 x (4 x 0.3048) x (4 x 0.3048) x
    (1 x 0.3048) = 3.6246 to 2 decimals; 399 bags of cement, 43766.1 kg of
    sand, 37538.2 kg of aggregate and 4766.3 kg of steel, all positive; and
    [calculate_cost] with the default rates gives a total of 807986.00 and
    [cost_per_sqft] = 673.32, the total divided by 1200 and rounded to 2
    decimals. *)
Theorem scenario_quantities_and_cost :
  exists (m : snapshot) (res : CostResult) (cps : Q),
    calculate_materials scenario = Ok m
    /\ field_eq m "concrete" "footing_rcc" (362 # 100)
    /\ Qabs ((362 # 100) - 8 * (4 * FT_TO_M) * (4 * FT_TO_M) * (1 * FT_TO_M))
       <= 1 # 200
    /\ field_eq m "cement" "total_bags" 399
    /\ field_eq m "sand" "total_sand_kg" (437661 # 10)
    /\ field_eq m "aggregate" "total_aggregate_kg" (375382 # 10)
    /\ field_eq m "steel" "total_steel_kg" (47663 # 10)
    /\ calculate_cost m "standard" None = Ok res
    /\ total_material_cost res == 807986
    /\ cost_per_sqft res = Some cps
    /\ cps == 67332 # 100
    /\ cps == round (total_material_cost res / 1200) 2.
Proof.
  assert (H : match calculate_materials scenario with
              | Ok m =>
                  field_is m "concrete" "footing_rcc" (362 # 100)
                  && field_is m "cement" "total_bags" 399
                  && field_is m "sand" "total_sand_kg" (437661 # 10)
                  && field_is m "aggregate" "total_aggregate_kg" (375382 # 10)
                  && field_is m "steel" "total_steel_kg" (47663 # 10)
                  && match calculate_cost m "standard" None with
                     | Ok res =>
                         Qeq_bool (total_material_cost res) 807986
                         && match cost_per_sqft res with
                            | Some c =>
                                Qeq_bool c (67332 # 100)
                                && Qeq_bool c (round (total_material_cost res / 1200) 2)
                            | None => false
                            end
                     | Err _ => false
                     end
              | Err _ => false
              end = true) by (vm_compute; reflexivity).
  destruct (calculate_materials scenario) as [m|]; [|discriminate].
  split_andb.
  destruct (calculate_cost m "standard" None) as [res|] eqn:Ecost; [|congruence].
  split_andb.
  destruct (cost_per_sqft res) as [c|] eqn:Ecps; [|congruence].
  split_andb.
  exists m, res, c.
  split; [reflexivity|].
  split; [apply field_is_true; assumption|].
  split; [Qle_closed|].
  repeat (split; [apply field_is_true; assumption|]).
  split; [exact Ecost|].
  split; [apply Qeq_bool_eq; assumption|].
  split; [exact Ecps|].
  split; apply Qeq_bool_eq; assumption.
Qed.

(** C3 (as stated) fails: [footing_rcc] is 3.62 m3, and so is the product the
    claim gives for it; neither is within 10 m3 of 14.24. *)
Lemma scenario_footing_is_not_14_24 :
  exists m : snapshot,
    calculate_materials scenario = Ok m
    /\ field_eq m "concrete" "footing_rcc" (362 # 100)
    /\ ~ Qabs ((362 # 100) - (1424 # 100)) <= 10
    /\ ~ Qabs (8 * (4 * FT_TO_M) * (4 * FT_TO_M) * (1 * FT_TO_M) - (1424 # 100))
         <= 10.
Proof.
  destruct scenario_footing as (m & E & Hf).
  exists m. split; [exact E|]. split; [exact Hf|].
  split; intros H; apply Qle_bool_iff in H; vm_compute in H; discriminate.
Qed.

(** C8 (the code at the failing input).  On the scenario
    [calculate_materials] gives [concrete_sand_m3] = 12.513, with 3 decimals;
    the economy variant has 13.5 there, with 1 decimal, where the scaled
    value at 3 decimals is 13.514. *)
Theorem variant_rounds_sand_m3_to_one_decimal :
  exists m : snapshot,
    calculate_materials scenario = Ok m
    /\ field_eq m "sand" "concrete_sand_m3" (12513 # 1000)
    /\ field_eq (generate_plan_variants m "economy") "sand" "concrete_sand_m3"
         (135 # 10)
    /\ round ((12513 # 1000) * (108 # 100)) 3 == 13514 # 1000.
Proof.
  assert (H : match calculate_materials scenario with
              | Ok m =>
                  field_is m "sand" "concrete_sand_m3" (12513 # 1000)
                  && field_is (generate_plan_variants m "economy")
                       "sand" "concrete_sand_m3" (135 # 10)
              | Err _ => false
              end = true) by (vm_compute; reflexivity).
  destruct (calculate_materials scenario) as [m|]; [|discriminate].
  apply andb_prop in H as [H1 H2].
  exists m. split; [reflexivity|].
  split; [apply field_is_true, H1|].
  split; [apply field_is_true, H2|].
  apply Qeq_bool_eq. vm_compute. reflexivity.
Qed.

(* ===================================================================== *)
(** ** The order of the three plans                                        *)
(* ===================================================================== *)

Lemma has_decimals_round (n : nat) (v : Q) : has_decimals n v -> round v n == v.
Proof.
  intros [k Hk]. rewrite Hk. apply round_fixed.
Qed.

(** C7 (as the code has it).  On every adjusted field that is there with a
    number that is not negative, the economy value is at least the premium
    value; and when the number has no more decimals than the field is
    rounded to, economy >= standard >= premium. *)
Theorem plan_order_on_rounded_fields (m : snapshot) (sec key : string)
    (n : nat) (v : Q) :
  adjusted_digits sec key = Some n ->
  field m sec key = Some v ->
  0 <= v ->
  exists ve vs vp : Q,
    field (generate_plan_variants m "economy") sec key = Some ve
    /\ field (generate_plan_variants m "standard") sec key = Some vs
    /\ field (generate_plan_variants m "premium") sec key = Some vp
    /\ vp <= ve
    /\ (has_decimals n v -> vp <= vs /\ vs <= ve).
Proof.
  intros Hn Hv Hpos.
  exists (round (v * (108 # 100)) n), v, (round (v * (95 # 100)) n).
  split; [rewrite variant_field, Hn, Hv; reflexivity|].
  split; [rewrite variant_field, Hn, Hv; reflexivity|].
  split; [rewrite variant_field, Hn, Hv; reflexivity|].
  split.
  - apply round_mono. lra.
  - intros Hd. apply has_decimals_round in Hd.
    split.
    + apply Qle_trans with (round v n).
      * apply round_mono. lra.
      * rewrite Hd. apply Qle_refl.
    + apply Qle_trans with (round v n).
      * rewrite Hd. apply Qle_refl.
      * apply round_mono. lra.
Qed.

Lemma plan_order_on_rounded_fields_witness :
  adjusted_digits "cement" "for_concrete" = Some 0%nat
  /\ field twelve_bags "cement" "for_concrete" = Some 12
  /\ 0 <= 12
  /\ has_decimals 0 12
  /\ exists ve vs vp : Q,
       field (generate_plan_variants twelve_bags "economy") "cement" "for_concrete"
       = Some ve
       /\ field (generate_plan_variants twelve_bags "standard") "cement" "for_concrete"
          = Some vs
       /\ field (generate_plan_variants twelve_bags "premium") "cement" "for_concrete"
          = Some vp
       /\ vp <= vs /\ vs <= ve.
Proof.
  assert (Hn : adjusted_digits "cement" "for_concrete" = Some 0%nat) by reflexivity.
  assert (Hv : field twelve_bags "cement" "for_concrete" = Some 12)
    by (vm_compute; reflexivity).
  assert (Hpos : 0 <= 12) by lra.
  assert (Hd : has_decimals 0 12) by (exists 12%Z; reflexivity).
  split; [exact Hn|]. split; [exact Hv|]. split; [exact Hpos|]. split; [exact Hd|].
  destruct (plan_order_on_rounded_fields twelve_bags "cement" "for_concrete" 0 12
              Hn Hv Hpos) as (ve & vs & vp & Ee & Es & Ep & _ & Hord).
  exists ve, vs, vp. split; [exact Ee|]. split; [exact Es|]. split; [exact Ep|].
  exact (Hord Hd).
Defined.

(** C7 (as stated) fails.  A snapshot with 0.004 m3 of plain concrete, which
    the standard plan keeps, has 0.00 m3 in the economy plan (0.00432 to 2
    decimals).  And for the one-room building [calculate_materials] gives
    [concrete_sand_m3] = 0.507, which the economy plan turns into 0.5
    (0.54756 to 1 decimal). *)
Lemma small_volume_breaks_plan_order :
  (nonneg_snapshot thin_pcc
   /\ field_eq (generate_plan_variants thin_pcc "economy") "concrete" "pcc_volume" 0
   /\ field_eq (generate_plan_variants thin_pcc "standard") "concrete" "pcc_volume"
        (4 # 1000)
   /\ ~ plans_ordered thin_pcc)
  /\ (exists m : snapshot,
        calculate_materials small_room = Ok m
        /\ field_eq (generate_plan_variants m "economy") "sand" "concrete_sand_m3"
             (5 # 10)
        /\ field_eq (generate_plan_variants m "standard") "sand" "concrete_sand_m3"
             (507 # 1000)
        /\ ~ plans_ordered m).
Proof.
  split.
  - assert (He : field_is (generate_plan_variants thin_pcc "economy")
                   "concrete" "pcc_volume" 0 = true) by (vm_compute; reflexivity).
    assert (Hs : field_is (generate_plan_variants thin_pcc "standard")
                   "concrete" "pcc_volume" (4 # 1000) = true)
      by (vm_compute; reflexivity).
    assert (Hp : field_is (generate_plan_variants thin_pcc "premium")
                   "concrete" "pcc_volume" 0 = true) by (vm_compute; reflexivity).
    apply field_is_true in He, Hs, Hp.
    split; [|split; [exact He|split; [exact Hs|]]].
    + intros sec key v. unfold field, thin_pcc.
      rewrite lookup_singleton. case_decide; [|discriminate].
      cbn. rewrite lookup_singleton. case_decide; [|discriminate].
      intros [= <-]. lra.
    + intros Hord.
      destruct He as (ve & Ee & Hve), Hs as (vs & Es & Hvs), Hp as (vp & Ep & Hvp).
      destruct (Hord "concrete"%string "pcc_volume"%string 2%nat ve vs vp
                  eq_refl Ee Es Ep) as [_ Hle].
      rewrite Hve, Hvs in Hle. lra.
  - assert (H : match calculate_materials small_room with
                | Ok m =>
                    field_is (generate_plan_variants m "economy")
                      "sand" "concrete_sand_m3" (5 # 10)
                    && field_is (generate_plan_variants m "standard")
                         "sand" "concrete_sand_m3" (507 # 1000)
                    && field_is (generate_plan_variants m "premium")
                         "sand" "concrete_sand_m3" (5 # 10)
                | Err _ => false
                end = true) by (vm_compute; reflexivity).
    destruct (calculate_materials small_room) as [m|]; [|discriminate].
    apply andb_prop in H as [H Hp]. apply andb_prop in H as [He Hs].
    apply field_is_true in He, Hs, Hp.
    exists m. split; [reflexivity|].
    split; [exact He|]. split; [exact Hs|].
    intros Hord.
    destruct He as (ve & Ee & Hve), Hs as (vs & Es & Hvs), Hp as (vp & Ep & Hvp).
    destruct (Hord "sand"%string "concrete_sand_m3"%string 1%nat ve vs vp
                eq_refl Ee Es Ep) as [_ Hle].
    rewrite Hve, Hvs in Hle. lra.
Qed.

(* ===================================================================== *)
(** ** Further facts on [calculate_cost] and [generate_boq]                *)
(* ===================================================================== *)

(** With the 8 rates that the plan applies, [calculate_cost] returns, and
    each category costs its priced quantity times its rate. *)
Lemma calculate_cost_priced (m : snapshot) (p : string)
    (cr : option (gmap string Q)) (r1 r2 r3 r4 r5 r6 r7 r8 : Q) :
  Forall2 (fun k r => plan_rates p (base_rates cr) !! k = Some r)
    required_rate_keys [r1; r2; r3; r4; r5; r6; r7; r8] ->
  exists res : CostResult,
    calculate_cost m p cr = Ok res
    /\ applied_rates res = plan_rates p (base_rates cr)
    /\ itemized_costs res =
         {[ "cement" := round (get (get_section m "cement") "total_bags" 0 * r1) 2;
            "sand" := round (priced_sand_m3 m * r2) 2;
            "aggregate" := round (priced_aggregate_m3 m * r3) 2;
            "steel" := round (get (get_section m "steel") "total_steel_kg" 0 * r4) 2;
            "bricks" :=
              round (get (get_section m "masonry") "brick_quantity" 0 / 100 * r5) 2;
            "tiles" :=
              round (get (get_section m "finishing") "flooring_area_m2" 0 * r6) 2;
            "paint" := round (get (get_section m "finishing") "paint_liters" 0 * r7) 2;
            "plaster" :=
              round (get (get_section m "finishing") "plaster_volume_m3" 0 * r8) 2 ]}
    /\ total_material_cost res =
         round (fold_left Qplus
                  (zip_with Qmult (priced_quantities m)
                     [r1; r2; r3; r4; r5; r6; r7; r8]) 0) 2.
Proof.
  intros Hr. unfold required_rate_keys in Hr.
  repeat match type of Hr with
         | Forall2 _ (_ :: _) (_ :: _) => apply Forall2_cons in Hr as [? Hr]
         end.
  unfold calculate_cost. cbv zeta.
  repeat (erewrite rbind_getitem by eassumption).
  fold (flooring_area_sqft m).
  destruct (truthy (flooring_area_sqft m)) eqn:Ht.
  - apply truthy_true in Ht.
    rewrite rbind_pydiv by exact Ht. rewrite !rbind_Ok.
    eexists. split; [reflexivity|].
    cbn [itemized_costs applied_rates total_material_cost].
    repeat split; reflexivity.
  - rewrite !rbind_Ok.
    eexists. split; [reflexivity|].
    cbn [itemized_costs applied_rates total_material_cost].
    repeat split; reflexivity.
Qed.

(** The rates of a complete table, key by key. *)
Lemma rates_complete_values (r : gmap string Q) :
  rates_complete r ->
  exists b1 b2 b3 b4 b5 b6 b7 b8 : Q,
    Forall2 (fun k b => r !! k = Some b) required_rate_keys
      [b1; b2; b3; b4; b5; b6; b7; b8].
Proof.
  unfold rates_complete, required_rate_keys. intros Hc.
  repeat match type of Hc with
         | Forall _ (_ :: _) => apply Forall_cons in Hc as [[? ?] Hc]
         end.
  do 8 eexists. repeat constructor; eassumption.
Qed.

Lemma base_rates_complete_table (r : gmap string Q) :
  rates_complete r -> base_rates (Some r) = r.
Proof.
  intros Hc. unfold base_rates.
  destruct (Nat.eqb_spec (size r) 0) as [Hz | Hz]; [|reflexivity].
  apply map_size_empty_iff in Hz. subst r.
  unfold rates_complete, required_rate_keys in Hc.
  apply Forall_cons in Hc as [[v Hv] _]. rewrite lookup_empty in Hv. discriminate.
Qed.

Lemma get_nonneg (m : snapshot) (sec key : string) :
  nonneg_snapshot m -> 0 <= get (get_section m sec) key 0.
Proof.
  intros Hm. unfold get, get_section.
  destruct (m !! sec) as [d|] eqn:Es; cbn.
  - destruct (d !! key) as [v|] eqn:Ek; [|lra].
    apply (Hm sec key v). unfold field. rewrite Es. exact Ek.
  - rewrite lookup_empty. lra.
Qed.

Lemma Qdiv_nonneg (x y : Q) : 0 <= x -> 0 < y -> 0 <= x / y.
Proof.
  intros Hx Hy. apply Qle_shift_div_l; [exact Hy | lra].
Qed.

Lemma priced_quantities_nonneg (m : snapshot) :
  nonneg_snapshot m -> Forall (Qle 0) (priced_quantities m).
Proof.
  intros Hm. unfold priced_quantities, priced_sand_m3, priced_aggregate_m3.
  cbv zeta.
  pose proof (get_nonneg m "sand" "concrete_sand_m3" Hm).
  pose proof (get_nonneg m "sand" "brickwork_sand_m3" Hm).
  pose proof (get_nonneg m "sand" "plaster_sand_m3" Hm).
  pose proof (get_nonneg m "sand" "total_sand_kg" Hm).
  pose proof (get_nonneg m "aggregate" "concrete_aggregate_m3" Hm).
  pose proof (get_nonneg m "aggregate" "concrete_aggregate_kg" Hm).
  repeat constructor; try (apply get_nonneg, Hm).
  - destruct (_ && _)%bool; [apply Qdiv_nonneg; lra | lra].
  - destruct (_ && _)%bool; [apply Qdiv_nonneg; lra | lra].
  - apply Qdiv_nonneg; [apply get_nonneg, Hm | lra].
Qed.

(** X1.  The rates [calculate_cost] applies are the ones [get_rates_by_plan]
    of the loader makes of the selected table, for every plan string. *)
Theorem applied_rates_are_get_rates_by_plan (m : snapshot) (p : string)
    (cr : option (gmap string Q)) :
  rates_complete (base_rates cr) ->
  exists res : CostResult,
    calculate_cost m p cr = Ok res
    /\ applied_rates res = get_rates_by_plan (base_rates cr) p.
Proof.
  intros Hc.
  destruct (calculate_cost_ok m p cr Hc)
    as (res & c1 & c2 & c3 & c4 & c5 & c6 & c7 & c8 & E & _ & _ & Ha & _).
  exists res. split; [exact E|]. rewrite Ha. reflexivity.
Qed.

Lemma applied_rates_are_get_rates_by_plan_witness :
  rates_complete (base_rates (Some sub_cent_rates))
  /\ exists res : CostResult,
       calculate_cost one_bag_one_kg "premium" (Some sub_cent_rates) = Ok res
       /\ applied_rates res
          = get_rates_by_plan (base_rates (Some sub_cent_rates)) "premium".
Proof.
  assert (Hc : rates_complete (base_rates (Some sub_cent_rates))).
  { unfold rates_complete, required_rate_keys.
    repeat constructor; vm_compute; eexists; reflexivity. }
  split; [exact Hc|].
  exact (applied_rates_are_get_rates_by_plan one_bag_one_kg "premium"
           (Some sub_cent_rates) Hc).
Defined.

(** The rates of the three plans, from the rates of the table. *)
Lemma plan_rates_scaled (r : gmap string Q) (bs : list Q) :
  Forall2 (fun k b => r !! k = Some b) required_rate_keys bs ->
  Forall2 (fun k b => plan_rates "economy" r !! k = Some b) required_rate_keys
    (map (fun b => b * (90 # 100)) bs)
  /\ Forall2 (fun k b => plan_rates "standard" r !! k = Some b) required_rate_keys bs
  /\ Forall2 (fun k b => plan_rates "premium" r !! k = Some b) required_rate_keys
       (map (fun b => b * (115 # 100)) bs).
Proof.
  intros H. split; [|split].
  - induction H as [|k b ks bs' Hk _ IH]; cbn [map]; constructor; [|exact IH].
    unfold plan_rates. cbn. rewrite lookup_fmap, Hk. reflexivity.
  - exact H.
  - induction H as [|k b ks bs' Hk _ IH]; cbn [map]; constructor; [|exact IH].
    unfold plan_rates. cbn. rewrite lookup_fmap, Hk. reflexivity.
Qed.

(** X2.  On one and the same snapshot with no negative quantity, and with a
    complete table of non-negative rates, the total of the economy plan is at
    most the total of the standard plan, which is at most the total of the
    premium plan. *)
Theorem plan_totals_ordered (m : snapshot) (r : gmap string Q) :
  nonneg_snapshot m ->
  nonneg_rates r ->
  rates_complete r ->
  exists re rs rp : CostResult,
    calculate_cost m "economy" (Some r) = Ok re
    /\ calculate_cost m "standard" (Some r) = Ok rs
    /\ calculate_cost m "premium" (Some r) = Ok rp
    /\ total_material_cost re <= total_material_cost rs
    /\ total_material_cost rs <= total_material_cost rp.
Proof.
  intros Hm Hr Hc.
  destruct (rates_complete_values r Hc)
    as (b1 & b2 & b3 & b4 & b5 & b6 & b7 & b8 & Hb).
  pose proof (base_rates_complete_table r Hc) as Hbase.
  destruct (plan_rates_scaled r _ Hb) as (He & Hs & Hp).
  rewrite <- Hbase in He, Hs, Hp. cbn [map] in He, Hp.
  destruct (calculate_cost_priced m "economy" (Some r) _ _ _ _ _ _ _ _ He)
    as (re & Ee & _ & _ & Te).
  destruct (calculate_cost_priced m "standard" (Some r) _ _ _ _ _ _ _ _ Hs)
    as (rs & Es & _ & _ & Ts).
  destruct (calculate_cost_priced m "premium" (Some r) _ _ _ _ _ _ _ _ Hp)
    as (rp & Ep & _ & _ & Tp).
  exists re, rs, rp.
  split; [exact Ee|]. split; [exact Es|]. split; [exact Ep|].
  rewrite Te, Ts, Tp.
  pose proof (priced_quantities_nonneg m Hm) as Hq.
  unfold priced_quantities in *.
  repeat match type of Hq with
         | Forall _ (_ :: _) => apply Forall_cons in Hq as [? Hq]
         end.
  assert (Hb' : Forall (Qle 0) [b1; b2; b3; b4; b5; b6; b7; b8]).
  { clear - Hb Hr. unfold required_rate_keys in Hb.
    repeat match type of Hb with
           | Forall2 _ (_ :: _) (_ :: _) => apply Forall2_cons in Hb as [? Hb]
           end.
    repeat constructor; eapply Hr; eassumption. }
  repeat match type of Hb' with
         | Forall _ (_ :: _) => apply Forall_cons in Hb' as [? Hb']
         end.
  cbn [zip_with fold_left].
  repeat match goal with
         | Hq1 : 0 <= ?q, Hb1 : 0 <= ?b |- context [?q * ?b] =>
             lazymatch goal with
             | _ : 0 <= q * b |- _ => fail
             | _ => pose proof (Qmult_le_0_compat q b Hq1 Hb1)
             end
         end.
  split; apply round_mono; lra.
Qed.

(** All the ways in which a lookup in a dictionary written out key by key
    can give a value; [tac] closes each of them. *)
Ltac enum_lookup H tac :=
  first
    [ rewrite lookup_insert in H; case_decide;
      [ enum_hit H tac | enum_lookup H tac ]
    | rewrite lookup_singleton in H; case_decide;
      [ enum_hit H tac | enum_miss H ]
    | rewrite lookup_empty in H; enum_miss H ]
with enum_hit H tac :=
  first
    [ injection H as <-; tac
    | subst; cbn [mbind option_bind] in H; enum_lookup H tac ]
with enum_miss H :=
  first [ discriminate H | cbn [mbind option_bind] in H; discriminate H ].

Lemma nonneg_default_rates : nonneg_rates default_rates.
Proof.
  intros k v H. unfold default_rates in H.
  enum_lookup H ltac:(lra).
Qed.

Lemma nonneg_one_bag_one_kg : nonneg_snapshot one_bag_one_kg.
Proof.
  intros sec key v H. unfold field, one_bag_one_kg in H.
  enum_lookup H ltac:(lra).
Qed.

Lemma plan_totals_ordered_witness :
  nonneg_snapshot one_bag_one_kg
  /\ nonneg_rates default_rates
  /\ rates_complete default_rates
  /\ exists re rs rp : CostResult,
       calculate_cost one_bag_one_kg "economy" (Some default_rates) = Ok re
       /\ calculate_cost one_bag_one_kg "standard" (Some default_rates) = Ok rs
       /\ calculate_cost one_bag_one_kg "premium" (Some default_rates) = Ok rp
       /\ total_material_cost re <= total_material_cost rs
       /\ total_material_cost rs <= total_material_cost rp.
Proof.
  split; [exact nonneg_one_bag_one_kg|].
  split; [exact nonneg_default_rates|].
  split; [exact default_rates_complete|].
  exact (plan_totals_ordered one_bag_one_kg default_rates
           nonneg_one_bag_one_kg nonneg_default_rates default_rates_complete).
Defined.

(** X3.  With a complete rate table, in the bill of quantities the amount of
    the rows Cement, Steel Reinforcement, Floor Tiles, Paint and Plaster is
    the quantity of the row times its rate, rounded to 2 decimals; for Bricks
    it is the quantity over 100 times the rate. *)
Theorem boq_amount_is_quantity_times_rate (m : snapshot) (p : string)
    (cr : option (gmap string Q)) :
  rates_complete (base_rates cr) ->
  exists res : CostResult,
    calculate_cost m p cr = Ok res
    /\ forall row : BOQRow,
         In row (generate_boq m res) ->
         (In (item row)
             [ "Cement"; "Steel Reinforcement"; "Floor Tiles"; "Paint";
               "Plaster" ]%string ->
          exists r : Q,
            rate row = Some r
            /\ amount row = Some (round (quantity row * r) 2))
         /\ (item row = "Bricks"%string ->
             exists r : Q,
               rate row = Some r
               /\ amount row = Some (round (quantity row / 100 * r) 2)).
Proof.
  intros Hc. apply (plan_rates_complete p) in Hc.
  destruct (rates_complete_values _ Hc)
    as (r1 & r2 & r3 & r4 & r5 & r6 & r7 & r8 & Hr).
  destruct (calculate_cost_priced m p cr _ _ _ _ _ _ _ _ Hr)
    as (res & E & Ha & Hi & _).
  exists res. split; [exact E|].
  unfold required_rate_keys in Hr.
  repeat match type of Hr with
         | Forall2 _ (_ :: _) (_ :: _) => apply Forall2_cons in Hr as [? Hr]
         end.
  intros row Hin. unfold generate_boq in Hin. cbv zeta in Hin. cbn [In] in Hin.
  rewrite Ha, Hi in Hin.
  repeat (destruct Hin as [<- | Hin]);
    try contradiction;
    cbn [item rate amount quantity In];
    (split;
     [ intros Hl; repeat (destruct Hl as [Hl | Hl]); try discriminate Hl;
       try contradiction
     | intros Hl; try discriminate Hl ]);
    eexists; (split; [eassumption | map_lookups; reflexivity]).
Qed.

Lemma boq_amount_is_quantity_times_rate_witness :
  rates_complete (base_rates None)
  /\ exists res : CostResult,
       calculate_cost one_bag_one_kg "economy" None = Ok res
       /\ forall row : BOQRow,
            In row (generate_boq one_bag_one_kg res) ->
            (In (item row)
                [ "Cement"; "Steel Reinforcement"; "Floor Tiles"; "Paint";
                  "Plaster" ]%string ->
             exists r : Q,
               rate row = Some r
               /\ amount row = Some (round (quantity row * r) 2))
            /\ (item row = "Bricks"%string ->
                exists r : Q,
                  rate row = Some r
                  /\ amount row = Some (round (quantity row / 100 * r) 2)).
Proof.
  split; [exact default_rates_complete|].
  exact (boq_amount_is_quantity_times_rate one_bag_one_kg "economy" None
           default_rates_complete).
Defined.

(** X4.  When the sand volumes of the snapshot add up to zero and a sand mass
    that is not zero is there, [calculate_cost] prices the mass over 1600
    kg/m3; the Sand row of the bill of quantities then shows the quantity 0
    beside that amount. *)
Theorem sand_priced_by_mass_without_volume (m : snapshot) (p : string)
    (cr : option (gmap string Q)) (kg : Q) :
  rates_complete (base_rates cr) ->
  sand_volume_sum m == 0 ->
  get_section m "sand" !! "total_sand_kg"%string = Some kg ->
  ~ kg == 0 ->
  exists (res : CostResult) (r : Q),
    calculate_cost m p cr = Ok res
    /\ applied_rates res !! "sand_per_m3"%string = Some r
    /\ itemized_costs res !! "sand"%string = Some (round (kg / 1600 * r) 2)
    /\ exists row : BOQRow,
         In row (generate_boq m res)
         /\ item row = "Sand"%string
         /\ quantity row == 0
         /\ rate row = Some r
         /\ amount row = Some (round (kg / 1600 * r) 2).
Proof.
  intros Hc Hsum Hkg Hnz. apply (plan_rates_complete p) in Hc.
  destruct (rates_complete_values _ Hc)
    as (r1 & r2 & r3 & r4 & r5 & r6 & r7 & r8 & Hr).
  destruct (calculate_cost_priced m p cr _ _ _ _ _ _ _ _ Hr)
    as (res & E & Ha & Hi & _).
  assert (Hq : priced_sand_m3 m = kg / 1600).
  { unfold priced_sand_m3. cbv zeta. fold (sand_volume_sum m).
    rewrite (Qeq_eq_bool _ _ Hsum).
    unfold truthy_key, get. rewrite Hkg.
    apply truthy_true in Hnz. rewrite Hnz. reflexivity. }
  rewrite Hq in Hi.
  unfold required_rate_keys in Hr.
  apply Forall2_cons in Hr as [_ Hr]. apply Forall2_cons in Hr as [Hr2 _].
  exists res, r2. split; [exact E|].
  split; [rewrite Ha; exact Hr2|].
  split; [rewrite Hi; map_lookups; reflexivity|].
  eexists. split.
  - unfold generate_boq. cbv zeta. cbn [In].
    do 6 right. left. reflexivity.
  - cbn [item quantity rate amount].
    split; [reflexivity|].
    split.
    + fold (sand_volume_sum m). rewrite Hsum. exact (round_fixed 0 3).
    + split; [rewrite Ha; exact Hr2|].
      rewrite Hi. map_lookups. reflexivity.
Qed.

Lemma sand_priced_by_mass_without_volume_witness :
  rates_complete (base_rates None)
  /\ sand_volume_sum sand_by_mass == 0
  /\ get_section sand_by_mass "sand" !! "total_sand_kg"%string = Some 3200
  /\ ~ 3200 == 0
  /\ exists (res : CostResult) (r : Q),
       calculate_cost sand_by_mass "standard" None = Ok res
       /\ applied_rates res !! "sand_per_m3"%string = Some r
       /\ itemized_costs res !! "sand"%string = Some (round (3200 / 1600 * r) 2)
       /\ exists row : BOQRow,
            In row (generate_boq sand_by_mass res)
            /\ item row = "Sand"%string
            /\ quantity row == 0
            /\ rate row = Some r
            /\ amount row = Some (round (3200 / 1600 * r) 2).
Proof.
  assert (Hs : sand_volume_sum sand_by_mass == 0) by (vm_compute; reflexivity).
  assert (Hk : get_section sand_by_mass "sand" !! "total_sand_kg"%string = Some 3200)
    by (vm_compute; reflexivity).
  assert (Hn : ~ 3200 == 0) by (intros H; discriminate H).
  split; [exact default_rates_complete|].
  split; [exact Hs|]. split; [exact Hk|]. split; [exact Hn|].
  exact (sand_priced_by_mass_without_volume sand_by_mass "standard" None 3200
           default_rates_complete Hs Hk Hn).
Defined.

(* ===================================================================== *)
(** ** Further facts on [calculate_materials] and the variants             *)
(* ===================================================================== *)

Lemma round_nonneg (x : Q) (n : nat) : 0 <= x -> 0 <= round x n.
Proof.
  intros Hx.
  assert (H0 : round 0 n == 0).
  { pose proof (round_fixed 0 n) as H. unfold Qdiv in H.
    rewrite Qmult_0_l in H. exact H. }
  rewrite <- H0. apply round_mono, Hx.
Qed.

Lemma Qplus_nonneg (x y : Q) : 0 <= x -> 0 <= y -> 0 <= x + y.
Proof. intros Hx Hy. lra. Qed.

Lemma inject_Z_nonneg (z : Z) : (0 <= z)%Z -> 0 <= inject_Z z.
Proof. intros Hz. change 0 with (inject_Z 0). rewrite <- Zle_Qle. exact Hz. Qed.

Lemma ceil_nonneg (x : Q) : 0 <= x -> 0 <= inject_Z (ceil x).
Proof.
  intros Hx. unfold ceil. pose proof (Qle_ceiling x) as H. lra.
Qed.

Lemma mix_ratios_nonneg (g : string) :
  match default (1, 3 # 2, 3) (mix_ratios !! g) with
  | (c, s, a) => 0 <= c /\ 0 <= s /\ 0 <= a
  end.
Proof.
  unfold mix_ratios. rewrite !lookup_insert, lookup_singleton.
  repeat case_decide; cbn; repeat split; lra.
Qed.

Lemma mortar_ratio_nonneg (g : string) :
  0 <= fst (default (1, 6) (mortar_ratio !! g))
  /\ 0 <= snd (default (1, 6) (mortar_ratio !! g)).
Proof.
  unfold mortar_ratio. rewrite !lookup_insert, lookup_singleton.
  repeat case_decide; cbn; split; lra.
Qed.

Lemma cement_content_nonneg (g : string) :
  0 <= default 320 (cement_content_per_m3 !! g).
Proof.
  unfold cement_content_per_m3. rewrite !lookup_insert, lookup_singleton.
  repeat case_decide; cbn; lra.
Qed.

(** The result of a guarded division of a non-negative number is
    non-negative. *)
Lemma guarded_nonneg (a b q : Q) :
  0 <= a -> (b <= 0 -> q = 0) -> (0 < b -> q = a / b) -> 0 <= q.
Proof.
  intros Ha H0 H1. destruct (Qlt_le_dec 0 b) as [Hb | Hb].
  - rewrite (H1 Hb). apply Qdiv_nonneg; assumption.
  - rewrite (H0 Hb). lra.
Qed.

Lemma Qsquare_nonneg (x : Q) : 0 <= x * x.
Proof. nra. Qed.

(** Non-negative by the shape of the expression. *)
Ltac nonneg_step :=
  match goal with
  | |- 0 <= round _ _ => apply round_nonneg
  | |- 0 <= ?x * ?x => apply Qsquare_nonneg
  | |- 0 <= inject_Z (ceil _) => apply ceil_nonneg
  | |- 0 <= inject_Z _ => apply inject_Z_nonneg
  | |- 0 <= _ * _ => apply Qmult_le_0_compat
  | |- 0 <= _ + _ => apply Qplus_nonneg
  | |- 0 <= _ / _ => apply Qdiv_nonneg
  end.

Ltac nonneg := repeat first [ assumption | nonneg_step | lra | lia ].

(** X5.  When no count and no dimension of the inputs is negative,
    [calculate_materials] returns a snapshot in which no quantity is
    negative. *)
Theorem materials_are_nonneg (inputs : InputSet) :
  nonneg_inputs inputs ->
  exists m : snapshot,
    calculate_materials inputs = Ok m /\ nonneg_snapshot m.
Proof.
  intros H. unfold nonneg_inputs in H.
  repeat match type of H with
         | _ /\ _ => let H1 := fresh "Hin" in destruct H as [H1 H]
         end.
  pose proof (mix_ratios_nonneg (lower (default "m20"%string (concrete_grade inputs))))
    as Hparts.
  pose proof (mortar_ratio_nonneg (default "1:6"%string (mortar_mix inputs)))
    as [Hm1 Hm2].
  pose proof (cement_content_nonneg
                (lower (default "m20"%string (concrete_grade inputs)))) as Hcc.
  run_materials inputs bricks tiles.
  destruct Hparts as (Hp1 & Hp2 & Hp3).
  assert (Hbricks : 0 <= bricks).
  { eapply guarded_nonneg; [|eassumption|eassumption]. lra. }
  assert (Htiles : 0 <= tiles).
  { eapply guarded_nonneg; [|eassumption|eassumption]. assumption. }
  clear Hbricks_zero Hbricks_div Htiles_zero Htiles_div.
  eexists. split; [reflexivity|].
  intros sec key v Hf. unfold field in Hf.
  unfold FT_TO_M, INCH_TO_M, SQFT_TO_SQM, cement_bag_kg, cement_bulk_density_kg_m3,
    sand_bulk_density_kg_m3, aggregate_bulk_density_kg_m3, steel_usage_footing,
    steel_usage_column, steel_usage_beam, steel_usage_slab,
    paint_coverage_m2_per_litre in *.
  enum_lookup Hf ltac:(nonneg).
Qed.

Lemma scenario_nonneg : nonneg_inputs scenario.
Proof.
  unfold nonneg_inputs, scenario, scenario_with_bricks.
  cbn [num_floors num_footings num_columns footing_length footing_width
       footing_depth pcc_thickness column_length column_width column_height
       total_beam_length beam_width beam_depth slab_area slab_thickness
       external_wall_length internal_wall_length wall_thickness wall_height
       internal_plaster_thickness external_plaster_thickness flooring_area
       paint_coats default from_option id].
  repeat split; first [ lia | lra ].
Qed.

Lemma materials_are_nonneg_witness :
  nonneg_inputs scenario
  /\ exists m : snapshot,
       calculate_materials scenario = Ok m /\ nonneg_snapshot m.
Proof.
  split; [exact scenario_nonneg|].
  exact (materials_are_nonneg scenario scenario_nonneg).
Defined.

Lemma round_idem (x : Q) (n : nat) : round (round x n) n == round x n.
Proof. exact (round_fixed (round_half_even (x * pow10 n)) n). Qed.

(** A field that holds a non-negative number rounded to the decimals to which
    the variants round it is ordered over the three plans. *)
Lemma rounded_field_ordered (m : snapshot) (sec key : string) (n : nat) (x : Q) :
  adjusted_digits sec key = Some n ->
  field m sec key = Some (round x n) ->
  0 <= x ->
  field_ordered m sec key.
Proof.
  intros Hn Hv Hx.
  pose proof (round_nonneg x n Hx) as Hr.
  pose proof (round_idem x n) as Hi.
  exists (round (round x n * (108 # 100)) n), (round x n),
         (round (round x n * (95 # 100)) n).
  split; [rewrite variant_field, Hn, Hv; reflexivity|].
  split; [rewrite variant_field, Hn, Hv; reflexivity|].
  split; [rewrite variant_field, Hn, Hv; reflexivity|].
  split.
  - apply Qle_trans with (round (round x n) n).
    + apply round_mono. lra.
    + rewrite Hi. apply Qle_refl.
  - apply Qle_trans with (round (round x n) n).
    + rewrite Hi. apply Qle_refl.
    + apply round_mono. lra.
Qed.

(** X6.  When no count and no dimension of the inputs is negative, the
    snapshot of [calculate_materials] has economy >= standard >= premium on
    all the concrete, cement and steel fields, on the kg fields of sand and
    aggregate, on the brick quantity and on the tile quantity. *)
Theorem materials_plans_ordered (inputs : InputSet) :
  nonneg_inputs inputs ->
  exists m : snapshot,
    calculate_materials inputs = Ok m
    /\ Forall (fun sk => field_ordered m (fst sk) (snd sk)) same_digits_fields.
Proof.
  intros H. unfold nonneg_inputs in H.
  repeat match type of H with
         | _ /\ _ => let H1 := fresh "Hin" in destruct H as [H1 H]
         end.
  pose proof (mix_ratios_nonneg (lower (default "m20"%string (concrete_grade inputs))))
    as Hparts.
  pose proof (mortar_ratio_nonneg (default "1:6"%string (mortar_mix inputs)))
    as [Hm1 Hm2].
  pose proof (cement_content_nonneg
                (lower (default "m20"%string (concrete_grade inputs)))) as Hcc.
  run_materials inputs bricks tiles.
  destruct Hparts as (Hp1 & Hp2 & Hp3).
  assert (Hbricks : 0 <= bricks).
  { eapply guarded_nonneg; [|eassumption|eassumption]. lra. }
  assert (Htiles : 0 <= tiles).
  { eapply guarded_nonneg; [|eassumption|eassumption]. assumption. }
  clear Hbricks_zero Hbricks_div Htiles_zero Htiles_div.
  eexists. split; [reflexivity|].
  unfold FT_TO_M, INCH_TO_M, SQFT_TO_SQM, cement_bag_kg, cement_bulk_density_kg_m3,
    sand_bulk_density_kg_m3, aggregate_bulk_density_kg_m3, steel_usage_footing,
    steel_usage_column, steel_usage_beam, steel_usage_slab,
    paint_coverage_m2_per_litre in *.
  unfold same_digits_fields.
  repeat (apply Forall_cons; split;
          [ cbn [fst snd];
            eapply rounded_field_ordered;
            [ reflexivity | read_fields; reflexivity | nonneg ]
          | ]).
  apply Forall_nil. exact I.
Qed.

Lemma materials_plans_ordered_witness :
  nonneg_inputs scenario
  /\ exists m : snapshot,
       calculate_materials scenario = Ok m
       /\ Forall (fun sk => field_ordered m (fst sk) (snd sk)) same_digits_fields.
Proof.
  split; [exact scenario_nonneg|].
  exact (materials_plans_ordered scenario scenario_nonneg).
Defined.

Lemma lower_ascii_idem (c : ascii) : lower_ascii (lower_ascii c) = lower_ascii c.
Proof.
  destruct c as [[] [] [] [] [] [] [] []]; reflexivity.
Qed.

Lemma lower_idem (s : string) : lower (lower s) = lower s.
Proof.
  induction s as [|c s IH]; cbn [lower]; [reflexivity|].
  rewrite lower_ascii_idem, IH. reflexivity.
Qed.

(** The projections of the inputs, for [cbn]. *)
Ltac input_fields :=
  cbn [num_floors structure_type num_footings footing_length footing_width
       footing_depth pcc_thickness num_columns column_length column_width
       column_height total_beam_length beam_width beam_depth slab_area
       slab_thickness concrete_grade mortar_mix external_wall_length
       internal_wall_length wall_thickness wall_height
       internal_plaster_thickness external_plaster_thickness brick_length_m
       brick_width_m brick_height_m flooring_area tile_size paint_coats].

(** X7.  The concrete grade is read without regard to case: a grade and its
    lower-case spelling give the same result. *)
Theorem grade_is_case_insensitive (grade : string) (mortar : option string)
    (i : InputSet) :
  calculate_materials (with_mixes (Some grade) mortar i)
  = calculate_materials (with_mixes (Some (lower grade)) mortar i).
Proof.
  unfold calculate_materials, with_mixes. input_fields.
  cbn [default from_option id].
  rewrite lower_idem. reflexivity.
Qed.

(** X8.  A concrete grade that is none of m20, m25, m30 (in any case) and a
    mortar mix that is none of 1:6, 1:4, 1:3 are not refused: the result is
    the one for no grade and no mix given, that is for m20 and 1:6. *)
Theorem unknown_mixes_fall_back (grade mortar : string) (i : InputSet) :
  ~ In (lower grade) ["m20"; "m25"; "m30"]%string ->
  ~ In mortar ["1:6"; "1:4"; "1:3"]%string ->
  calculate_materials (with_mixes (Some grade) (Some mortar) i)
  = calculate_materials (with_mixes None None i)
  /\ calculate_materials (with_mixes None None i)
     = calculate_materials (with_mixes (Some "m20"%string) (Some "1:6"%string) i).
Proof.
  intros Hg Hm. cbn [In] in Hg, Hm.
  assert (Hc : cement_content_per_m3 !! lower grade = None).
  { unfold cement_content_per_m3. rewrite !lookup_insert, lookup_singleton.
    repeat case_decide; tauto. }
  assert (Hx : mix_ratios !! lower grade = None).
  { unfold mix_ratios. rewrite !lookup_insert, lookup_singleton.
    repeat case_decide; tauto. }
  assert (Hr : mortar_ratio !! mortar = None).
  { unfold mortar_ratio. rewrite !lookup_insert, lookup_singleton.
    repeat case_decide; tauto. }
  split.
  - unfold calculate_materials, with_mixes. input_fields.
    cbn [default from_option id].
    rewrite Hc, Hx, Hr. reflexivity.
  - reflexivity.
Qed.

Lemma unknown_mixes_fall_back_witness :
  ~ In (lower "M35") ["m20"; "m25"; "m30"]%string
  /\ ~ In "1:5"%string ["1:6"; "1:4"; "1:3"]%string
  /\ calculate_materials (with_mixes (Some "M35"%string) (Some "1:5"%string) scenario)
     = calculate_materials (with_mixes None None scenario)
  /\ calculate_materials (with_mixes None None scenario)
     = calculate_materials
         (with_mixes (Some "m20"%string) (Some "1:6"%string) scenario).
Proof.
  assert (Hg : ~ In (lower "M35") ["m20"; "m25"; "m30"]%string).
  { cbn. intros [H | [H | [H | H]]]; try discriminate H; exact H. }
  assert (Hm : ~ In "1:5"%string ["1:6"; "1:4"; "1:3"]%string).
  { cbn. intros [H | [H | [H | H]]]; try discriminate H; exact H. }
  split; [exact Hg|]. split; [exact Hm|].
  exact (unknown_mixes_fall_back "M35" "1:5" scenario Hg Hm).
Defined.


(** X10.  In the snapshot of [calculate_materials], and in the variant of
    every plan, [total_aggregate_kg] is [concrete_aggregate_kg]. *)
Theorem aggregate_total_is_its_part (inputs : InputSet) (plan : string) :
  exists (m : snapshot) (v : Q),
    calculate_materials inputs = Ok m
    /\ field (generate_plan_variants m plan) "aggregate" "total_aggregate_kg"
       = Some v
    /\ field (generate_plan_variants m plan) "aggregate" "concrete_aggregate_kg"
       = Some v.
Proof.
  run_materials inputs bricks tiles.
  assert (Hd : forall key, adjusted_digits "aggregate" key = Some 1%nat)
    by reflexivity.
  destruct (Qeq_bool (adjustment_factor plan) 1) eqn:Hf.
  - eexists. eexists. split; [reflexivity|].
    rewrite !variant_field, !Hd, Hf.
    split; read_fields; reflexivity.
  - eexists. eexists. split; [reflexivity|].
    rewrite !variant_field, !Hd, Hf.
    split; read_fields; reflexivity.
Qed.

(** X11.  [generate_plan_variants] adds and drops nothing: its result has
    the sections of its input, and in every section the quantities of its
    input, for every plan string. *)
Theorem variants_keep_shape (m : snapshot) (plan : string) :
  (forall sec : string,
     is_Some (generate_plan_variants m plan !! sec) <-> is_Some (m !! sec))
  /\ (forall sec key : string,
        is_Some (field (generate_plan_variants m plan) sec key)
        <-> is_Some (field m sec key)).
Proof.
  split.
  - intros sec. unfold generate_plan_variants. cbv zeta.
    destruct (negb _); [|reflexivity].
    cbn [fold_left]. rewrite !lookup_alter_is_Some. reflexivity.
  - intros sec key. rewrite variant_field.
    destruct (adjusted_digits sec key); [|reflexivity].
    destruct (Qeq_bool _ _); [reflexivity|].
    apply fmap_is_Some.
Qed.

(* ===================================================================== *)
(** ** Facts on the floor plan                                             *)
(* ===================================================================== *)

Lemma int_of_le (x : Q) (k : Z) :
  (0 <= k)%Z -> ((int_of x <= k)%Z <-> x < inject_Z k + 1).
Proof.
  intros Hk. unfold int_of.
  destruct (Qle_bool 0 x) eqn:E.
  - destruct (floor_bounds x) as [Hlo Hhi]. split.
    + intros H. rewrite Zle_Qle in H. lra.
    + intros H. apply Z.lt_succ_r. rewrite Zlt_Qlt.
      unfold Z.succ. rewrite inject_Z_plus. change (inject_Z 1) with 1. lra.
  - assert (Hx : x < 0).
    { apply Qnot_le_lt. intros H. apply Qle_bool_iff in H. congruence. }
    assert (Hc : (Qceiling x <= 0)%Z).
    { change 0%Z with (Qceiling 0). apply Qceiling_resp_le. lra. }
    pose proof (inject_Z_nonneg k Hk). split; [intros _; lra | intros _; lia].
Qed.

Lemma canvas_at_least (x : Q) (k : Z) : inject_Z k <= inject_Z (Z.max (int_of x) k).
Proof. rewrite <- Zle_Qle. lia. Qed.

(** X12.  The canvas is 600 by 500 exactly for the plots of which 3 times the
    length is below 601 and 3 times the width is below 501 (up to 200 ft by
    166 ft), and all these plots get one and the same drawing: the rooms are
    not drawn to the scale of the plot. *)
Theorem small_plots_share_one_drawing (plot_length plot_width : Q)
    (layout_type : string) :
  ((canvas_width (generate_floor_plan plot_length plot_width layout_type) = 600%Z
    /\ canvas_height (generate_floor_plan plot_length plot_width layout_type)
       = 500%Z)
   <-> (plot_length * 3 < 601 /\ plot_width * 3 < 501))
  /\ (plot_length * 3 < 601 -> plot_width * 3 < 501 ->
      generate_floor_plan plot_length plot_width layout_type
      = generate_floor_plan 0 0 layout_type).
Proof.
  pose proof (int_of_le (plot_length * 3) 600 ltac:(lia)) as Hw.
  pose proof (int_of_le (plot_width * 3) 500 ltac:(lia)) as Hh.
  change (inject_Z 600 + 1) with (600 + 1) in Hw.
  change (inject_Z 500 + 1) with (500 + 1) in Hh.
  assert (Hw' : Z.max (int_of (plot_length * 3)) 600 = 600%Z
                <-> plot_length * 3 < 601).
  { rewrite Z.max_r_iff, Hw. split; intros H; lra. }
  assert (Hh' : Z.max (int_of (plot_width * 3)) 500 = 500%Z
                <-> plot_width * 3 < 501).
  { rewrite Z.max_r_iff, Hh. split; intros H; lra. }
  split.
  - unfold generate_floor_plan. cbn [canvas_width canvas_height].
    rewrite Hw', Hh'. reflexivity.
  - intros Hl Hwd. apply Hw' in Hl. apply Hh' in Hwd.
    unfold generate_floor_plan. cbv zeta. rewrite Hl, Hwd. reflexivity.
Qed.

(** One of the four ways to be apart. *)
Ltac apart_any :=
  unfold apart; cbn [snd rect_x rect_y rect_width rect_height];
  first [ left; lra | right; left; lra | right; right; left; lra
        | right; right; right; lra ].

Ltac inside_all :=
  unfold inside; cbn [snd rect_x rect_y rect_width rect_height];
  repeat split; lra.

(** X13.  In layout 1, whatever the plot, the five rooms (kitchen, two
    bedrooms, master bedroom, bathroom) have a positive size, lie within the
    outer walls and are at least 25 apart from one another; the kitchen takes
    the full height, and the master bedroom and the bathroom end above the
    lower wall. *)
Theorem layout1_is_well_laid_out (plot_length plot_width : Q) :
  let fp := generate_floor_plan plot_length plot_width "layout1" in
  map fst (rooms fp)
  = [ "KITCHEN"; "BEDROOM 1"; "BEDROOM 2"; "MASTER BEDROOM"; "BATHROOM" ]%string
  /\ well_laid_out fp
  /\ (forall kitchen, In ("KITCHEN"%string, kitchen) (rooms fp) ->
        rect_height kitchen = rect_height (outer_walls fp))
  /\ (forall r, In ("MASTER BEDROOM"%string, r) (rooms fp)
                \/ In ("BATHROOM"%string, r) (rooms fp) ->
        rect_y r + rect_height r
        < rect_y (outer_walls fp) + rect_height (outer_walls fp)).
Proof.
  cbv zeta. unfold well_laid_out, generate_floor_plan.
  cbn [String.eqb Ascii.eqb Bool.eqb rooms outer_walls map fst].
  pose proof (canvas_at_least (plot_length * 3) 600) as Hw.
  pose proof (canvas_at_least (plot_width * 3) 500) as Hh.
  change (inject_Z 600) with 600 in Hw. change (inject_Z 500) with 500 in Hh.
  set (W := inject_Z (Z.max (int_of (plot_length * 3)) 600)) in *.
  set (H := inject_Z (Z.max (int_of (plot_width * 3)) 500)) in *.
  assert (Hg : 25 / 2 == 25 # 2) by (vm_compute; reflexivity).
  split; [reflexivity|].
  split; [split|split].
  - repeat (apply Forall_cons; split; [inside_all|]). apply Forall_nil. exact I.
  - repeat (apply FOP_cons;
            [repeat (apply Forall_cons; split; [apart_any|]);
             apply Forall_nil; exact I|]).
    apply FOP_nil.
  - intros kitchen Hin. cbn [In] in Hin.
    repeat (destruct Hin as [Hin | Hin]; try discriminate Hin);
      try contradiction.
    injection Hin as <-. reflexivity.
  - intros r [Hin | Hin]; cbn [In] in Hin;
      repeat (destruct Hin as [Hin | Hin]; try discriminate Hin);
      try contradiction;
      injection Hin as <-; cbn [rect_y rect_height]; lra.
Qed.

(** X14.  Every layout type other than 'layout1' gives layout 2, with its
    title.  Whatever the plot, its six rooms have a positive size, lie within
    the outer walls and are at least 25 apart from one another; and each of
    its two rows of rooms, with its two gaps of 25, takes the full width of
    the outer walls. *)
Theorem other_layouts_are_layout2 (plot_length plot_width : Q)
    (layout_type : string) :
  layout_type <> "layout1"%string ->
  let fp := generate_floor_plan plot_length plot_width layout_type in
  fp = generate_floor_plan plot_length plot_width "layout2"
  /\ plan_title fp = "LAYOUT 2: SEPARATE ROOMS"%string
  /\ map fst (rooms fp)
     = [ "BEDROOM 1"; "BEDROOM 2"; "MASTER BEDROOM"; "BATHROOM"; "KITCHEN";
         "LIVING/DINING" ]%string
  /\ well_laid_out fp
  /\ Qsum (map (fun room => rect_width (snd room)) (firstn 3 (rooms fp))) + 2 * 25
     == rect_width (outer_walls fp)
  /\ Qsum (map (fun room => rect_width (snd room)) (skipn 3 (rooms fp))) + 2 * 25
     == rect_width (outer_walls fp).
Proof.
  intros Hl. cbv zeta. apply String.eqb_neq in Hl.
  unfold well_laid_out, generate_floor_plan. rewrite Hl.
  cbn [String.eqb Ascii.eqb Bool.eqb rooms outer_walls plan_title map fst snd
       firstn skipn Qsum rect_width].
  pose proof (canvas_at_least (plot_length * 3) 600) as Hw.
  pose proof (canvas_at_least (plot_width * 3) 500) as Hh.
  change (inject_Z 600) with 600 in Hw. change (inject_Z 500) with 500 in Hh.
  set (W := inject_Z (Z.max (int_of (plot_length * 3)) 600)) in *.
  set (H := inject_Z (Z.max (int_of (plot_width * 3)) 500)) in *.
  assert (H3 : (W - 2 * 30 - 2 * 25) / 3 == (W - 2 * 30 - 2 * 25) * (1 # 3))
    by field.
  assert (H4 : (W - 2 * 30 - 2 * 25) / 4 == (W - 2 * 30 - 2 * 25) * (1 # 4))
    by field.
  split; [reflexivity|]. split; [reflexivity|]. split; [reflexivity|].
  split; [split|split].
  - repeat (apply Forall_cons; split; [inside_all|]). apply Forall_nil. exact I.
  - repeat (apply FOP_cons;
            [repeat (apply Forall_cons; split; [apart_any|]);
             apply Forall_nil; exact I|]).
    apply FOP_nil.
  - lra.
  - lra.
Qed.

Lemma other_layouts_are_layout2_witness :
  "compact"%string <> "layout1"%string
  /\ (let fp := generate_floor_plan 30 40 "compact" in
      fp = generate_floor_plan 30 40 "layout2"
      /\ plan_title fp = "LAYOUT 2: SEPARATE ROOMS"%string
      /\ map fst (rooms fp)
         = [ "BEDROOM 1"; "BEDROOM 2"; "MASTER BEDROOM"; "BATHROOM"; "KITCHEN";
             "LIVING/DINING" ]%string
      /\ well_laid_out fp
      /\ Qsum (map (fun room => rect_width (snd room)) (firstn 3 (rooms fp)))
         + 2 * 25
         == rect_width (outer_walls fp)
      /\ Qsum (map (fun room => rect_width (snd room)) (skipn 3 (rooms fp)))
         + 2 * 25
         == rect_width (outer_walls fp)).
Proof.
  assert (Hl : "compact"%string <> "layout1"%string) by discriminate.
  split; [exact Hl|].
  exact (other_layouts_are_layout2 30 40 "compact" Hl).
Defined.

(* ===================================================================== *)
(** ** Facts on the rate loader and on the three plans                     *)
(* ===================================================================== *)

(** A table with the 8 rate keys and no other. *)
Lemma loader_default_rates_keys (k : string) :
  is_Some (loader_default_rates !! k) <-> In k required_rate_keys.
Proof.
  unfold loader_default_rates, required_rate_keys. split.
  - intros [v H]. enum_lookup H ltac:(cbn [In]; tauto).
  - cbn [In]. intros H.
    repeat (destruct H as [<- | H]; [vm_compute; eexists; reflexivity|]).
    contradiction.
Qed.

(** One row changes nothing, or sets one of the 8 rates. *)
Lemma load_row_effect (str_of_number : Q -> string)
    (float_of_text : string -> option Q) (rates : gmap string Q)
    (row : list cell) :
  load_row str_of_number float_of_text rates row = rates
  \/ exists (k : string) (c : Q),
       In k required_rate_keys
       /\ load_row str_of_number float_of_text rates row = <[k := c]> rates.
Proof.
  unfold load_row. destruct row as [|c0 row']; [left; reflexivity|].
  cbv zeta.
  repeat match goal with
         | |- context [if ?b then _ else _] => destruct b
         | |- context [match ?o with Some _ => _ | None => _ end] => destruct o
         end;
    first [ left; reflexivity
          | right; eexists; eexists; split; [|reflexivity];
            unfold required_rate_keys; cbn [In]; tauto ].
Qed.

Lemma load_rows_keys (str_of_number : Q -> string)
    (float_of_text : string -> option Q) (rows : list (list cell))
    (rates : gmap string Q) :
  (forall k, is_Some (rates !! k) <-> In k required_rate_keys) ->
  forall k,
    is_Some (fold_left (load_row str_of_number float_of_text) rows rates !! k)
    <-> In k required_rate_keys.
Proof.
  revert rates. induction rows as [|row rows IH]; intros rates Hr; cbn [fold_left].
  - exact Hr.
  - apply IH. intros k.
    destruct (load_row_effect str_of_number float_of_text rates row)
      as [-> | (k' & c & Hin & ->)]; [apply Hr|].
    rewrite lookup_insert_is_Some'. rewrite Hr. split.
    + intros [<- | H]; assumption.
    + intros H. right. exact H.
Qed.

Lemma loaded_rates_keys (str_of_number : Q -> string)
    (float_of_text : string -> option Q) (file : workbook_file) (k : string) :
  is_Some (load_material_costs str_of_number float_of_text file !! k)
  <-> In k required_rate_keys.
Proof.
  unfold load_material_costs.
  destruct file as [| | |sheets]; try apply loader_default_rates_keys.
  destruct (select_sheet sheets) as [ws|]; [|apply loader_default_rates_keys].
  apply load_rows_keys. apply loader_default_rates_keys.
Qed.

Lemma keys_complete (r : gmap string Q) :
  (forall k, is_Some (r !! k) <-> In k required_rate_keys) -> rates_complete r.
Proof.
  intros H. unfold rates_complete. apply List.Forall_forall.
  intros k Hk. apply H. exact Hk.
Qed.

Lemma loaded_rates_complete (str_of_number : Q -> string)
    (float_of_text : string -> option Q) (file : workbook_file) :
  rates_complete (base_rates
                    (Some (load_material_costs str_of_number float_of_text file))).
Proof.
  assert (Hc : rates_complete
                 (load_material_costs str_of_number float_of_text file)).
  { apply keys_complete. intros k. apply loaded_rates_keys. }
  rewrite (base_rates_complete_table _ Hc). exact Hc.
Qed.

(** X15.  Whatever is on disk, the table of [load_material_costs] has the 8
    rate keys and no other, so that [calculate_cost] with it never raises
    [KeyError]: it returns for every snapshot and plan, with the loaded
    rates scaled as [get_rates_by_plan] scales them. *)
Theorem loaded_rates_always_price (str_of_number : Q -> string)
    (float_of_text : string -> option Q) (file : workbook_file) :
  let rates := load_material_costs str_of_number float_of_text file in
  (forall k : string, is_Some (rates !! k) <-> In k required_rate_keys)
  /\ forall (m : snapshot) (p : string),
       exists res : CostResult,
         calculate_cost m p (Some rates) = Ok res
         /\ applied_rates res = get_rates_by_plan rates p.
Proof.
  cbv zeta. split.
  - intros k. apply loaded_rates_keys.
  - intros m p.
    pose proof (loaded_rates_complete str_of_number float_of_text file) as Hc.
    destruct (calculate_cost_ok m p _ Hc)
      as (res & c1 & c2 & c3 & c4 & c5 & c6 & c7 & c8 & E & _ & _ & Ha & _).
    exists res. split; [exact E|]. rewrite Ha.
    rewrite base_rates_complete_table; [reflexivity|].
    apply keys_complete. intros k. apply loaded_rates_keys.
Qed.

Lemma load_row_no_cost (str_of_number : Q -> string)
    (float_of_text : string -> option Q) (rates : gmap string Q)
    (row : list cell) :
  no_cost row -> load_row str_of_number float_of_text rates row = rates.
Proof.
  intros Hn. unfold load_row. destruct row as [|c0 row']; [reflexivity|].
  destruct (negb (cell_truthy c0)); [reflexivity|]. cbv zeta.
  destruct ((c0 :: row') !! 2%nat) as [c2|] eqn:E2; [|reflexivity].
  rewrite (Hn c2 E2). reflexivity.
Qed.

(** X16.  Rows that give no cost are skipped, a cost of 0 like an empty
    cell: when no row below the header of the sheet that is read gives a
    cost, the loaded table is the default table. *)
Theorem rows_without_cost_change_nothing (str_of_number : Q -> string)
    (float_of_text : string -> option Q)
    (sheets : list (string * list (list cell))) (ws : list (list cell)) :
  select_sheet sheets = Some ws ->
  Forall no_cost (tail ws) ->
  load_material_costs str_of_number float_of_text (Workbook sheets)
  = loader_default_rates.
Proof.
  intros Hs Hrows. unfold load_material_costs. rewrite Hs.
  induction Hrows as [|row rows Hrow _ IH]; cbn [fold_left]; [reflexivity|].
  rewrite load_row_no_cost by exact Hrow. exact IH.
Qed.

Lemma rows_without_cost_change_nothing_witness :
  select_sheet zero_cost_book
  = Some [ [ CellText "Material"; CellText "Unit"; CellText "Cost" ];
           [ CellText "Cement"; CellText "bag"; CellNumber 0 ] ]
  /\ Forall no_cost
       (tail [ [ CellText "Material"; CellText "Unit"; CellText "Cost" ];
               [ CellText "Cement"; CellText "bag"; CellNumber 0 ] ])
  /\ load_material_costs (fun _ => "0"%string) (fun _ => None)
       (Workbook zero_cost_book)
     = loader_default_rates.
Proof.
  assert (Hs : select_sheet zero_cost_book
               = Some [ [ CellText "Material"; CellText "Unit"; CellText "Cost" ];
                        [ CellText "Cement"; CellText "bag"; CellNumber 0 ] ])
    by reflexivity.
  assert (Hr : Forall no_cost
                 (tail [ [ CellText "Material"; CellText "Unit"; CellText "Cost" ];
                         [ CellText "Cement"; CellText "bag"; CellNumber 0 ] ])).
  { cbn [tail]. repeat constructor. intros c2 H. injection H as <-. reflexivity. }
  split; [exact Hs|]. split; [exact Hr|].
  exact (rows_without_cost_change_nothing (fun _ => "0"%string) (fun _ => None)
           zero_cost_book _ Hs Hr).
Defined.

Lemma calculate_cost_with_default_table (m : snapshot) (p : string) :
  calculate_cost m p (Some loader_default_rates) = calculate_cost m p None.
Proof.
  assert (H : base_rates (Some loader_default_rates) = base_rates None)
    by (vm_compute; reflexivity).
  unfold calculate_cost. rewrite H. reflexivity.
Qed.

(** X17.  Unless a workbook is loaded (no openpyxl, no file, or a file that
    cannot be read), the loader returns the default table, and the three
    plans of [app.py] are the three plans of [app_exe.py], which passes no
    rate table. *)
Theorem estimate_without_workbook_is_estimate_exe (str_of_number : Q -> string)
    (float_of_text : string -> option Q) (file : workbook_file)
    (inputs : InputSet) :
  (forall sheets, file <> Workbook sheets) ->
  load_material_costs str_of_number float_of_text file = default_rates
  /\ estimate inputs (load_material_costs str_of_number float_of_text file)
     = estimate_exe inputs.
Proof.
  intros Hf.
  assert (Hl : load_material_costs str_of_number float_of_text file
               = loader_default_rates).
  { destruct file as [| | |sheets]; try reflexivity.
    exfalso. exact (Hf sheets eq_refl). }
  split; [rewrite Hl; reflexivity|].
  rewrite Hl. unfold estimate, estimate_exe.
  destruct (calculate_materials inputs) as [base|e]; [|reflexivity].
  rewrite !rbind_Ok, !calculate_cost_with_default_table. reflexivity.
Qed.

Lemma estimate_without_workbook_is_estimate_exe_witness :
  (forall sheets, FileMissing <> Workbook sheets)
  /\ load_material_costs (fun _ => "0"%string) (fun _ => None) FileMissing
     = default_rates
  /\ estimate scenario
       (load_material_costs (fun _ => "0"%string) (fun _ => None) FileMissing)
     = estimate_exe scenario.
Proof.
  assert (Hf : forall sheets, FileMissing <> Workbook sheets)
    by (intros sheets H; discriminate H).
  split; [exact Hf|].
  exact (estimate_without_workbook_is_estimate_exe (fun _ => "0"%string)
           (fun _ => None) FileMissing scenario Hf).
Defined.

